(** * Airline sentiment dashboard (app.py): filtering, metrics, time series,
      text corpus and the polarity threshold rule.

    The dashboard is one Python script.  Its logic sits inline in
    [load_data], [analyze_sentiment], [render_sidebar] and
    [render_main_content]; the definitions below follow those functions
    statement by statement.  pandas, Streamlit and TextBlob are outside the
    script: the pandas operations used are modelled on lists of rows, the
    widgets return what the user holds in them, and TextBlob's polarity,
    [str.isspace] and [WordCloud.generate] are parameters. *)

From Stdlib Require Import ZArith QArith Qabs Floats.
From stdpp Require Import gmap strings list sorting.

Local Open Scope string_scope.
Local Open Scope Z_scope.

(** ** Python exceptions and results *)

Inductive PyExc : Type :=
  | FileNotFoundError
  | ParserError
  | ValueError
  | KeyError (key : string)
  | TypeError
  | ZeroDivisionError
  | OverflowError
  | StreamlitAPIException.

Inductive Py (A : Type) : Type :=
  | Ok (x : A)
  | Raise (e : PyExc).
Arguments Ok {A} x.
Arguments Raise {A} e.

#[global] Instance Py_ret : MRet Py := λ A x, Ok x.
#[global] Instance Py_bind : MBind Py := λ A B k m,
  match m with
  | Ok x => k x
  | Raise e => Raise e
  end.

Definition returns {A} (m : Py A) : Prop := ∃ x, m = Ok x.

(** ** The data frame

    After [load_data] the global [data] is either the frame read from
    Tweets.csv, with its columns, or [pd.DataFrame()], which has no column at
    all.  A text cell is a string or missing ([None]: the NaN that [read_csv]
    puts for an empty field); the airline, sentiment and timestamp cells hold
    a value of their column's type.  [tweet_created] is the wall-clock time in
    seconds, so that [.dt.date] and the daily bins of [resample('D')] are its
    quotient by the length of a day. *)

Record Tweet : Type := mkTweet {
  text : option string;
  airline : string;
  airline_sentiment : string;
  tweet_created : Z
}.

#[global] Instance Tweet_eq_dec : EqDecision Tweet.
Proof. solve_decision. Defined.

Inductive DataFrame : Type :=
  | EmptyFrame                       (* pd.DataFrame() *)
  | Table (rows : list Tweet).

Definition records (df : DataFrame) : list Tweet :=
  match df with
  | EmptyFrame => []
  | Table rows => rows
  end.

(** [len(df)] *)
Definition len (df : DataFrame) : nat := length (records df).

(** [df.empty] *)
Definition empty (df : DataFrame) : bool := bool_decide (records df = []).

(** [df[name]]: the column, or [KeyError] when the frame has no such column. *)
Definition getitem {A} (name : string) (proj : Tweet → A) (df : DataFrame)
  : Py (list A) :=
  match df with
  | EmptyFrame => Raise (KeyError name)
  | Table rows => Ok (proj <$> rows)
  end.

(** [df[mask]]: the rows at which the boolean series holds, in order. *)
Fixpoint select (rows : list Tweet) (mask : list bool) : list Tweet :=
  match rows, mask with
  | r :: rows', b :: mask' =>
      if b then r :: select rows' mask' else select rows' mask'
  | _, _ => []
  end.

Definition getitem_mask (df : DataFrame) (mask : list bool) : DataFrame :=
  match df with
  | EmptyFrame => EmptyFrame
  | Table rows => Table (select rows mask)
  end.

(** [series == v], [series.isin(vs)], [series >= d], [series <= d], [a & b] *)
Definition series_eq (col : list string) (v : string) : list bool :=
  (λ x, bool_decide (x = v)) <$> col.
Definition isin (col : list string) (vs : list string) : list bool :=
  (λ x, bool_decide (x ∈ vs)) <$> col.
Definition series_ge (col : list Z) (d : Z) : list bool :=
  (λ x, bool_decide (d ≤ x)) <$> col.
Definition series_le (col : list Z) (d : Z) : list bool :=
  (λ x, bool_decide (x ≤ d)) <$> col.
Definition series_and (a b : list bool) : list bool := zip_with andb a b.

(** [.dt.date]: the calendar day of a timestamp. *)
Definition date_of (ts : Z) : Z := ts `div` 86400.
Definition dt_date (col : list Z) : list Z := date_of <$> col.

(** ** Session state (lines 18-23) *)

Record SessionState : Type := mkSession {
  selected_airline : string;
  date_range : option (list Z);        (* None, or the tuple of picked days *)
  sentiment_filter : list string
}.

Definition initial_session : SessionState :=
  {| selected_airline := "All";
     date_range := None;
     sentiment_filter := ["positive"; "neutral"; "negative"] |}.

(** [len(x)] of a session value that is [None] or a tuple. *)
Definition py_len {A} (x : option (list A)) : Py nat :=
  match x with
  | None => Raise TypeError
  | Some l => Ok (length l)
  end.

(** ** The filter block of [render_main_content] (lines 178-191) *)

(** lines 180-181 *)
Definition filter_airline (ss : SessionState) (filtered_data : DataFrame)
  : Py DataFrame :=
  if bool_decide (selected_airline ss ≠ "All") then
    col ← getitem "airline" airline filtered_data;
    Ok (getitem_mask filtered_data (series_eq col (selected_airline ss)))
  else Ok filtered_data.

(** lines 183-188 *)
Definition filter_date (ss : SessionState) (filtered_data : DataFrame)
  : Py DataFrame :=
  n ← py_len (date_range ss);
  if bool_decide (n = 2%nat) then
    match date_range ss with
    | Some [start_date; end_date] =>
        lo ← getitem "tweet_created" tweet_created filtered_data;
        hi ← getitem "tweet_created" tweet_created filtered_data;
        Ok (getitem_mask filtered_data
              (series_and (series_ge (dt_date lo) start_date)
                          (series_le (dt_date hi) end_date)))
    | _ => Raise ValueError            (* unpacking; not reached when n = 2 *)
    end
  else Ok filtered_data.

(** lines 190-191; an empty list is falsy *)
Definition filter_sentiment (ss : SessionState) (filtered_data : DataFrame)
  : Py DataFrame :=
  if bool_decide (sentiment_filter ss ≠ []) then
    col ← getitem "airline_sentiment" airline_sentiment filtered_data;
    Ok (getitem_mask filtered_data (isin col (sentiment_filter ss)))
  else Ok filtered_data.

(** lines 178-191; [data.copy()] is the same value *)
Definition apply_filters (ss : SessionState) (data : DataFrame) : Py DataFrame :=
  let filtered_data := data in
  filtered_data ← filter_airline ss filtered_data;
  filtered_data ← filter_date ss filtered_data;
  filter_sentiment ss filtered_data.

(** ** What the page shows

    Only the elements that carry computed values are kept; titles, captions
    and styling are left out.  A delta of a metric is kept as the double
    that Python's [/] returns, given by its exact value; the [.1%]
    formatting is not modelled. *)

(** The table that [unstack()] lays out: row labels, column labels, one row
    of cells per row label; [None] is the NaN of a missing combination. *)
Record Pivot (K : Type) : Type := mkPivot {
  index : list K;
  columns : list string;
  values : list (list (option nat))
}.
Arguments mkPivot {K} _ _ _.
Arguments index {K} _.
Arguments columns {K} _.
Arguments values {K} _.

(** What [generate_wordcloud] returns: the figure with the placeholder text,
    or the figure of the cloud that [WordCloud] made from a text and a
    colormap; the drawing itself is matplotlib's and wordcloud's. *)
Inductive Figure : Type :=
  | no_text_figure                               (* lines 53-56 *)
  | word_cloud_figure (text colormap : string).  (* lines 64-76 *)

Inductive Element : Type :=
  | st_error (e : PyExc)                                  (* line 33 *)
  | st_header (count : nat)                               (* lines 195-199 *)
  | st_metric (label : string) (value : nat) (delta : Q)  (* lines 205-211 *)
  | st_area_chart (time_df : Pivot Z)                     (* lines 219-232 *)
  | st_bar_chart (airline_df : Pivot string)              (* lines 237-251 *)
  | st_pyplot (fig : Figure)                              (* lines 264-265 *)
  | st_warning (sentiment : string)                       (* line 268 *)
  | st_sentiment_box (sentiment : string) (score : float). (* lines 284-293 *)

(** A run shows elements until it ends or an exception escapes. *)
Definition UI (A : Type) : Type := (list Element * Py A)%type.

#[global] Instance UI_ret : MRet UI := λ A x, ([], Ok x).
#[global] Instance UI_bind : MBind UI := λ A B k m,
  match m with
  | (shown, Ok x) => let '(shown', r) := k x in ((shown ++ shown')%list, r)
  | (shown, Raise e) => (shown, Raise e)
  end.

Definition show (e : Element) : UI unit := ([e], Ok ()).
Definition lift {A} (m : Py A) : UI A := ([], m).

(** ** The user's side of the widgets *)

Record User : Type := mkUser {
  st_selectbox : nat;                          (* position picked, line 151 *)
  st_date_input : list (option Z) → Py (list Z);  (* tuple held, line 160 *)
  st_multiselect : list string;                (* line 166 *)
  st_radio : string;                           (* line 255 *)
  st_text_area : string;                       (* line 272 *)
  st_button : bool                             (* line 278 *)
}.

(** ** Loading (lines 26-36) *)

Record RawTweet : Type := mkRaw {
  raw_text : option string;
  raw_airline : string;
  raw_airline_sentiment : string;
  raw_tweet_created : string
}.

(** [pd.to_datetime(column)]: every cell must parse. *)
Definition pd_to_datetime (parse : string → option Z) (col : list string)
  : Py (list Z) :=
  match mapM parse col with
  | Some ts => Ok ts
  | None => Raise ValueError
  end.

Definition with_created (r : RawTweet) (ts : Z) : Tweet :=
  {| text := raw_text r; airline := raw_airline r;
     airline_sentiment := raw_airline_sentiment r; tweet_created := ts |}.

(** [read_csv] is the outcome of [pd.read_csv("Tweets.csv")]: the rows of
    the frame it returns, or the exception it raises. *)
Definition load_data (parse : string → option Z) (read_csv : Py (list RawTweet))
  : UI DataFrame :=
  let try :=
    data ← read_csv;
    created ← pd_to_datetime parse (raw_tweet_created <$> data);
    Ok (Table (zip_with with_created data created)) in
  match try with
  | Ok data => mret data
  | Raise e => show (st_error e);; mret EmptyFrame
  end.

(** ** Polarity threshold (lines 39-48) *)

(** The literal [0.1] is the double 0x1.999999999999ap-4. *)
Definition py_0_1 : float := 0x1.999999999999ap-4%float.

Definition analyze_sentiment (textblob_polarity : string → float) (text : string)
  : string * float :=
  let polarity := textblob_polarity text in
  if (py_0_1 <? polarity)%float then ("positive", polarity)
  else if (polarity <? - py_0_1)%float then ("negative", polarity)
  else ("neutral", polarity).

(** ** Sidebar (lines 144-173) *)

(** [series.unique()]: distinct values in order of first appearance. *)
Fixpoint unique (l : list string) : list string :=
  match l with
  | [] => []
  | x :: l' => x :: filter (λ y, y ≠ x) (unique l')
  end.

(** [sorted(list_of_str)] *)
Definition sorted (l : list string) : list string := merge_sort String.le l.

(** [series.min()], [series.max()]; [None] is NaT. *)
Definition series_min (col : list Z) : option Z :=
  match col with
  | [] => None
  | x :: l => Some (foldl Z.min x l)
  end.
Definition series_max (col : list Z) : option Z :=
  match col with
  | [] => None
  | x :: l => Some (foldl Z.max x l)
  end.

(** The options offered by the select box (line 150). *)
Definition airline_options (data : DataFrame) : Py (list string) :=
  col ← getitem "airline" airline data;
  Ok ("All" :: sorted (unique col)).

(** The option at the picked position; the widget starts at position 0. *)
Definition selectbox (u : User) (options : list string) : string :=
  default "All" (options !! st_selectbox u).

Definition render_sidebar (u : User) (data : DataFrame) (ss : SessionState)
  : UI SessionState :=
  airlines ← lift (airline_options data);
  let ss := {| selected_airline := selectbox u airlines;
               date_range := date_range ss;
               sentiment_filter := sentiment_filter ss |} in
  lo ← lift (getitem "tweet_created" tweet_created data);
  let min_date := date_of <$> series_min lo in
  hi ← lift (getitem "tweet_created" tweet_created data);
  let max_date := date_of <$> series_max hi in
  picked ← lift (st_date_input u [min_date; max_date]);
  let ss := {| selected_airline := selected_airline ss;
               date_range := Some picked;
               sentiment_filter := sentiment_filter ss |} in
  mret {| selected_airline := selected_airline ss;
          date_range := date_range ss;
          sentiment_filter := st_multiselect u |}.

(** ** Key metrics (lines 202-211) *)

(** [a / b] on ints is the double nearest to the quotient, a tie going to
    the even mantissa; it raises when the divisor is zero and when the result
    is too large for a double.  A double is kept as its exact value.

    [round_half_even n d] is the integer nearest to [n/d].  The quotient of
    two positive ints lies between [2^e] and [2^(e+1)] for
    [e = quotient_exponent a b]; its double is [m * 2^u] with the mantissa
    [m] of 53 bits at [u = e - 52], or at [-1074] where doubles stop being
    normal. *)
Definition round_half_even (n d : Z) : Z :=
  let q := n `div` d in
  let r := n `mod` d in
  if 2 * r <? d then q
  else if d <? 2 * r then q + 1
  else if Z.even q then q else q + 1.

Definition quotient_exponent (a b : Z) : Z :=
  let e := Z.log2 a - Z.log2 b in
  let below := if 0 <=? e then a <? b * 2 ^ e else a * 2 ^ (- e) <? b in
  if below then e - 1 else e.

Definition nearest_double (a b : Z) : Z * Z :=
  let e := quotient_exponent a b in
  let u := Z.max (e - 52) (-1074) in
  let m := if 0 <=? u then round_half_even a (b * 2 ^ u)
           else round_half_even (a * 2 ^ (- u)) b in
  (m, u).

(** The value [m * 2^u]. *)
Definition double_value (mu : Z * Z) : Q :=
  let '(m, u) := mu in
  if 0 <=? u then inject_Z (m * 2 ^ u) else m # Z.to_pos (2 ^ (- u)).

Definition py_truediv (a b : nat) : Py Q :=
  match b, a with
  | O, _ => Raise ZeroDivisionError
  | S _, O => Ok 0%Q
  | S _, S _ =>
      let '(m, u) := nearest_double (Z.of_nat a) (Z.of_nat b) in
      if (0 <=? u) && (2 ^ 1024 <=? m * 2 ^ u) then Raise OverflowError
      else Ok (double_value (m, u))
  end.

(** The value of a finite double of the kernel, to compare with. *)
Definition SF_value (f : spec_float) : option Q :=
  match f with
  | S754_zero _ => Some 0%Q
  | S754_finite s m e => Some (double_value (if s then Z.neg m else Z.pos m, e))
  | _ => None
  end.

(** [len(filtered_data[filtered_data['airline_sentiment'] == s])] *)
Definition sentiment_rows (s : string) (filtered_data : DataFrame) : Py DataFrame :=
  col ← getitem "airline_sentiment" airline_sentiment filtered_data;
  Ok (getitem_mask filtered_data (series_eq col s)).

Definition sentiment_count (s : string) (filtered_data : DataFrame) : Py nat :=
  matching ← sentiment_rows s filtered_data;
  Ok (len matching).

Definition metric (label s : string) (filtered_data : DataFrame) : UI unit :=
  count ← lift (sentiment_count s filtered_data);
  share ← lift (py_truediv count (len filtered_data));
  show (st_metric label count share).

Definition key_metrics (filtered_data : DataFrame) : UI unit :=
  metric "Positive Tweets" "positive" filtered_data;;
  metric "Neutral Tweets" "neutral" filtered_data;;
  metric "Negative Tweets" "negative" filtered_data.

(** ** Grouped counts (lines 218 and 236)

    [resample('D')[col].value_counts()] and [groupby([a, b]).size()] both
    give a series of counts keyed by a pair of labels; it holds an entry for
    each pair that occurs among the rows and none for the others. *)

Definition count_key `{Countable K} (m : gmap K nat) (k : K) : gmap K nat :=
  <[k := S (default 0%nat (m !! k))]> m.

Definition group_size `{Countable K} (key : Tweet → K) (rows : list Tweet)
  : gmap K nat :=
  foldl (λ m r, count_key m (key r)) ∅ rows.

(** [series.unstack()]: the second label moves to the columns; both label
    lists come out sorted, and a pair without an entry is a missing cell. *)
Definition unstack `{Countable K} (sort : list K → list K)
    (series : gmap (K * string) nat) : Pivot K :=
  let labels := (map_to_list series).*1 in
  let idx := sort (remove_dups (labels.*1)) in
  let cols := sorted (remove_dups (labels.*2)) in
  {| index := idx;
     columns := cols;
     values := (λ k, (λ c, series !! (k, c)) <$> cols) <$> idx |}.

Definition day_and_sentiment (r : Tweet) : Z * string :=
  (date_of (tweet_created r), airline_sentiment r).
Definition airline_and_sentiment (r : Tweet) : string * string :=
  (airline r, airline_sentiment r).

(** line 218 *)
Definition time_df (filtered_data : DataFrame) : Py (Pivot Z) :=
  _ ← getitem "tweet_created" tweet_created filtered_data;
  _ ← getitem "airline_sentiment" airline_sentiment filtered_data;
  Ok (unstack (merge_sort Z.le)
        (group_size day_and_sentiment (records filtered_data))).

(** line 236 *)
Definition airline_df (filtered_data : DataFrame) : Py (Pivot string) :=
  _ ← getitem "airline" airline filtered_data;
  _ ← getitem "airline_sentiment" airline_sentiment filtered_data;
  Ok (unstack sorted
        (group_size airline_and_sentiment (records filtered_data))).

(** ** The tabs (lines 216-293) *)

Definition trends_tab (filtered_data : DataFrame) : UI unit :=
  df ← lift (time_df filtered_data);
  show (st_area_chart df).

Definition airlines_tab (filtered_data : DataFrame) : UI unit :=
  df ← lift (airline_df filtered_data);
  show (st_bar_chart df).

(** [sep.join(strings)] *)
Fixpoint py_join (sep : string) (l : list string) : string :=
  match l with
  | [] => ""
  | x :: l' =>
      match l' with
      | [] => x
      | _ => x ++ sep ++ py_join sep l'
      end
  end.

(** [sep.join(cells)]: every item must be a string. *)
Definition py_join_cells (sep : string) (cells : list (option string))
  : Py string :=
  match mapM id cells with
  | Some texts => Ok (py_join sep texts)
  | None => Raise TypeError
  end.

(** line 263 *)
Definition text_data (sentiment_data : DataFrame) : Py string :=
  cells ← getitem "text" text sentiment_data;
  py_join_cells " " cells.

(** The dict of lines 58-62. *)
Definition colormaps : gmap string string :=
  <["positive" := "viridis"]> (<["neutral" := "plasma"]> (<["negative" := "Reds"]> ∅)).

(** [generate_wordcloud] (lines 50-76).  [py_isspace] is Python's
    [str.isspace]; [wordcloud_generate colormap text] is
    [WordCloud(..., colormap=colormap, ...).generate(text)], which makes the
    cloud or raises, as it does for a text in which it finds no word. *)
Definition generate_wordcloud (py_isspace : string → bool)
    (wordcloud_generate : string → string → Py unit) (text sentiment : string)
  : Py Figure :=
  if bool_decide (text = "") || py_isspace text then Ok no_text_figure
  else
    let colormap := default "viridis" (colormaps !! sentiment) in
    _ ← wordcloud_generate colormap text;
    Ok (word_cloud_figure text colormap).

(** lines 255-268 *)
Definition word_clouds_tab (py_isspace : string → bool)
    (wordcloud_generate : string → string → Py unit)
    (u : User) (filtered_data : DataFrame) : UI unit :=
  let sentiment := st_radio u in
  sentiment_data ← lift (sentiment_rows sentiment filtered_data);
  if negb (empty sentiment_data) then
    corpus ← lift (text_data sentiment_data);
    fig ← lift (generate_wordcloud py_isspace wordcloud_generate corpus sentiment);
    show (st_pyplot fig)
  else show (st_warning sentiment).

(** lines 271-293 *)
Definition live_analysis_tab (textblob_polarity : string → float) (u : User)
  : UI unit :=
  let user_tweet := st_text_area u in
  if st_button u then
    let '(sentiment, score) := analyze_sentiment textblob_polarity user_tweet in
    show (st_sentiment_box sentiment score)
  else mret ().

(** ** [render_main_content], [main] and the script *)

Definition render_main_content (textblob_polarity : string → float)
    (py_isspace : string → bool) (wordcloud_generate : string → string → Py unit)
    (u : User) (ss : SessionState) (data : DataFrame) : UI unit :=
  filtered_data ← lift (apply_filters ss data);
  show (st_header (len filtered_data));;
  key_metrics filtered_data;;
  trends_tab filtered_data;;
  airlines_tab filtered_data;;
  word_clouds_tab py_isspace wordcloud_generate u filtered_data;;
  live_analysis_tab textblob_polarity u.

Definition main (textblob_polarity : string → float)
    (py_isspace : string → bool) (wordcloud_generate : string → string → Py unit)
    (u : User) (ss : SessionState) (data : DataFrame) : UI unit :=
  ss ← render_sidebar u data ss;
  render_main_content textblob_polarity py_isspace wordcloud_generate u ss data.

(** One run of the script: session defaults, [data = load_data()], [main()]. *)
Definition script (parse : string → option Z) (textblob_polarity : string → float)
    (py_isspace : string → bool) (wordcloud_generate : string → string → Py unit)
    (read_csv : Py (list RawTweet)) (u : User) : UI unit :=
  data ← load_data parse read_csv;
  main textblob_polarity py_isspace wordcloud_generate u initial_session data.

(** ** The filter as one predicate

    What the three steps of the filter block keep, said directly: the
    conjunction of an airline test, a date test and a sentiment test, each of
    them switched off by its guard. *)

Definition airline_ok (ss : SessionState) (r : Tweet) : Prop :=
  selected_airline ss = "All" ∨ airline r = selected_airline ss.

Definition date_ok (ss : SessionState) (r : Tweet) : Prop :=
  match date_range ss with
  | Some [start_date; end_date] =>
      start_date ≤ date_of (tweet_created r) ∧ date_of (tweet_created r) ≤ end_date
  | _ => True
  end.

Definition sentiment_ok (ss : SessionState) (r : Tweet) : Prop :=
  sentiment_filter ss = [] ∨ airline_sentiment r ∈ sentiment_filter ss.

Definition keeps (ss : SessionState) (r : Tweet) : Prop :=
  airline_ok ss r ∧ date_ok ss r ∧ sentiment_ok ss r.

#[global] Instance airline_ok_dec ss r : Decision (airline_ok ss r).
Proof. unfold airline_ok. apply _. Defined.
#[global] Instance date_ok_dec ss r : Decision (date_ok ss r).
Proof.
  unfold date_ok. destruct (date_range ss) as [[|a [|b [|c l]]]|]; apply _.
Defined.
#[global] Instance sentiment_ok_dec ss r : Decision (sentiment_ok ss r).
Proof. unfold sentiment_ok. apply _. Defined.
#[global] Instance keeps_dec ss r : Decision (keeps ss r).
Proof. unfold keeps. apply _. Defined.

(** Number of rows with a given sentiment, and with a given day and
    sentiment. *)
Definition count_of (s : string) (rows : list Tweet) : nat :=
  length (filter (λ r, airline_sentiment r = s) rows).

Definition count_on (k : Z * string) (rows : list Tweet) : nat :=
  length (filter (λ r, day_and_sentiment r = k) rows).

(** A cell of the daily table: the count where there is one, else missing. *)
Definition cell (rows : list Tweet) (d : Z) (s : string) : option nat :=
  match count_on (d, s) rows with
  | O => None
  | n => Some n
  end.

(** ** Sample data *)

(** 2015-02-17 is day 16483. *)
Definition tweet_delta : Tweet :=
  {| text := Some "great flight"; airline := "Delta";
     airline_sentiment := "positive"; tweet_created := 16483 * 86400 + 41752 |}.
Definition tweet_united : Tweet :=
  {| text := Some "lost my bag"; airline := "United";
     airline_sentiment := "negative"; tweet_created := 16485 * 86400 + 300 |}.
Definition tweet_all : Tweet :=
  {| text := Some "on time"; airline := "All";
     airline_sentiment := "neutral"; tweet_created := 16485 * 86400 + 7200 |}.

Definition sample : DataFrame := Table [tweet_delta; tweet_united; tweet_all].

(** A row whose text field was empty in the file. *)
Definition tweet_no_text : Tweet :=
  {| text := None; airline := "Delta";
     airline_sentiment := "positive"; tweet_created := 16484 * 86400 + 60 |}.

(** Stand-ins for [str.isspace] and [WordCloud.generate] in the examples: no
    text is blank, and a cloud is made of every text but "the". *)
Definition never_blank (text : string) : bool := false.
Definition cloud_unless_the (colormap text : string) : Py unit :=
  if bool_decide (text = "the") then Raise ValueError else Ok ().

(** A user who leaves the sidebar as it comes up. *)
Definition default_user : User :=
  {| st_selectbox := 0;
     st_date_input := λ bounds, Ok (omap id bounds);
     st_multiselect := ["positive"; "neutral"; "negative"];
     st_radio := "positive";
     st_text_area := "The flight was great and the service was excellent!";
     st_button := false |}.

(** A user who picks the second option of the select box, which for the
    sample is the airline named "All". *)
Definition picks_airline_named_All : User :=
  {| st_selectbox := 1;
     st_date_input := λ bounds, Ok (omap id bounds);
     st_multiselect := ["positive"; "neutral"; "negative"];
     st_radio := "positive";
     st_text_area := "The flight was great and the service was excellent!";
     st_button := false |}.

(** Two rows, of airlines A and B, on 2023-01-01 (day 19358) and the day
    after. *)
Definition tweet_A : Tweet :=
  {| text := Some "smooth boarding"; airline := "A";
     airline_sentiment := "positive"; tweet_created := 19358 * 86400 |}.
Definition tweet_B : Tweet :=
  {| text := Some "two hours late"; airline := "B";
     airline_sentiment := "negative"; tweet_created := 19359 * 86400 |}.

(** A user who picks Delta (third option of the select box) and the single
    day 2015-02-19. *)
Definition delta_on_the_19th : User :=
  {| st_selectbox := 2;
     st_date_input := λ _, Ok [16485; 16485];
     st_multiselect := ["positive"; "neutral"; "negative"];
     st_radio := "positive";
     st_text_area := "The flight was great and the service was excellent!";
     st_button := false |}.

(** ** Session defaults (lines 18-23)

    [st.session_state] outlives a run; each key is set to its default only
    when the session does not hold it yet. *)



(** ** Counting by a key *)

Definition count_by `{EqDecision K} (key : Tweet → K) (k : K) (rows : list Tweet)
  : nat :=
  length (filter (λ r, key r = k) rows).

Definition cell_by `{EqDecision K} (key : Tweet → K) (k : K) (rows : list Tweet)
  : option nat :=
  match count_by key k rows with
  | O => None
  | n => Some n
  end.

(** The three labels of the dataset. *)
Definition labels : list string := ["positive"; "neutral"; "negative"].

(** Sum of the cells of a table, a missing cell counting for nothing. *)
Definition cells_total {K} (df : Pivot K) : nat :=
  sum_list (default 0%nat <$> concat (values df)).

(** The label of the opposite polarity. *)
Definition opposite (label : string) : string :=
  if bool_decide (label = "positive") then "negative"
  else if bool_decide (label = "negative") then "positive"
  else label.

(** * Lemmas on the pandas operations *)

Section masks.
Context (P : Tweet → Prop) `{!∀ r, Decision (P r)}.

Lemma select_mask rows :
  select rows ((λ r, bool_decide (P r)) <$> rows) = filter P rows.
Proof.
  induction rows as [|r rows IH]; [done|].
  rewrite fmap_cons. simpl. rewrite IH.
  case_bool_decide; [by rewrite filter_cons_True | by rewrite filter_cons_False].
Qed.

Lemma filter_all (rows : list Tweet) : (∀ r, P r) → filter P rows = rows.
Proof.
  intros HP. induction rows as [|r rows IH]; [done|].
  rewrite filter_cons_True by done. by rewrite IH.
Qed.

Lemma filter_all_elem (rows : list Tweet) :
  (∀ r, r ∈ rows → P r) → filter P rows = rows.
Proof.
  induction rows as [|r rows IH]; [done|]. intros HP.
  rewrite filter_cons_True by (apply HP; left).
  rewrite IH; [done|]. intros r' Hr'. apply HP. by right.
Qed.
End masks.

Lemma select_sublist rows mask : select rows mask `sublist_of` rows.
Proof.
  revert mask. induction rows as [|r rows IH]; intros [|[] mask]; simpl;
    try apply sublist_nil_l.
  - apply sublist_skip, IH.
  - apply sublist_cons, IH.
Qed.

Lemma series_eq_mask (proj : Tweet → string) v rows :
  series_eq (proj <$> rows) v = (λ r, bool_decide (proj r = v)) <$> rows.
Proof. unfold series_eq. by rewrite <- list_fmap_compose. Qed.

Lemma isin_mask (proj : Tweet → string) vs rows :
  isin (proj <$> rows) vs = (λ r, bool_decide (proj r ∈ vs)) <$> rows.
Proof. unfold isin. by rewrite <- list_fmap_compose. Qed.

Lemma between_mask a b rows :
  series_and (series_ge (dt_date (tweet_created <$> rows)) a)
             (series_le (dt_date (tweet_created <$> rows)) b)
  = (λ r, bool_decide (a ≤ date_of (tweet_created r)
                       ∧ date_of (tweet_created r) ≤ b)) <$> rows.
Proof.
  unfold series_and, series_ge, series_le, dt_date.
  induction rows as [|r rows IH]; [done|].
  csimpl. rewrite IH. f_equal.
  repeat case_bool_decide; simpl; try done; tauto.
Qed.

(** * The filter block, step by step *)

Lemma filter_airline_Table ss rows :
  filter_airline ss (Table rows) = Ok (Table (filter (airline_ok ss) rows)).
Proof.
  unfold filter_airline. case_bool_decide as Hsel; simpl.
  - rewrite series_eq_mask, (select_mask (λ r, airline r = selected_airline ss)).
    do 2 f_equal. apply list_filter_iff. intros r. unfold airline_ok. tauto.
  - by rewrite filter_all by (intros r; left; by destruct (decide (selected_airline ss = "All"))).
Qed.

Lemma filter_date_Table ss dr rows :
  date_range ss = Some dr →
  filter_date ss (Table rows) = Ok (Table (filter (date_ok ss) rows)).
Proof.
  intros Hdr. unfold filter_date. rewrite Hdr. simpl.
  case_bool_decide as Hn.
  - destruct dr as [|a [|b [|c dr]]]; try discriminate Hn. simpl.
    rewrite between_mask, select_mask.
    do 2 f_equal. apply list_filter_iff. intros r. unfold date_ok. by rewrite Hdr.
  - rewrite filter_all; [done|]. intros r. unfold date_ok. rewrite Hdr.
    by destruct dr as [|a [|b [|c dr]]].
Qed.

Lemma filter_sentiment_Table ss rows :
  filter_sentiment ss (Table rows) = Ok (Table (filter (sentiment_ok ss) rows)).
Proof.
  unfold filter_sentiment. case_bool_decide as Hsf; simpl.
  - rewrite isin_mask, (select_mask (λ r, airline_sentiment r ∈ sentiment_filter ss)).
    do 2 f_equal. apply list_filter_iff. intros r. unfold sentiment_ok. tauto.
  - rewrite filter_all; [done|]. intros r. left.
    by destruct (decide (sentiment_filter ss = [])).
Qed.

Lemma apply_filters_Table ss dr rows :
  date_range ss = Some dr →
  apply_filters ss (Table rows) = Ok (Table (filter (keeps ss) rows)).
Proof.
  intros Hdr. unfold apply_filters.
  rewrite filter_airline_Table. simpl.
  rewrite (filter_date_Table _ dr) by done. simpl.
  rewrite filter_sentiment_Table. do 2 f_equal.
  rewrite !list_filter_filter. apply list_filter_iff.
  intros r. unfold keeps. tauto.
Qed.

(** * The filter block as a whole *)

Lemma getitem_mask_sublist df mask :
  records (getitem_mask df mask) `sublist_of` records df.
Proof. destruct df; simpl; [done|apply select_sublist]. Qed.

Lemma filter_airline_sublist ss df fd :
  filter_airline ss df = Ok fd → records fd `sublist_of` records df.
Proof.
  unfold filter_airline. case_bool_decide; [|by intros [= <-]].
  destruct df; simpl; [done|]. intros [= <-]. apply select_sublist.
Qed.

Lemma filter_date_sublist ss df fd :
  filter_date ss df = Ok fd → records fd `sublist_of` records df.
Proof.
  unfold filter_date. destruct (date_range ss) as [dr|]; simpl; [|done].
  case_bool_decide; [|by intros [= <-]].
  destruct dr as [|a [|b [|c dr]]]; try done.
  destruct df; simpl; [done|]. intros [= <-]. apply select_sublist.
Qed.

Lemma filter_sentiment_sublist ss df fd :
  filter_sentiment ss df = Ok fd → records fd `sublist_of` records df.
Proof.
  unfold filter_sentiment. case_bool_decide; [|by intros [= <-]].
  destruct df; simpl; [done|]. intros [= <-]. apply select_sublist.
Qed.

Lemma apply_filters_sublist ss data fd :
  apply_filters ss data = Ok fd → records fd `sublist_of` records data.
Proof.
  unfold apply_filters.
  destruct (filter_airline ss data) as [fd1|e] eqn:H1; [|done]. simpl.
  destruct (filter_date ss fd1) as [fd2|e] eqn:H2; [|done]. simpl.
  intros H3.
  etrans; [by eapply filter_sentiment_sublist|].
  etrans; [by eapply filter_date_sublist|].
  by eapply filter_airline_sublist.
Qed.

Lemma render_sidebar_Ok u data ss0 shown ss :
  render_sidebar u data ss0 = (shown, Ok ss) →
  ∃ rows dr, data = Table rows ∧ date_range ss = Some dr
             ∧ sentiment_filter ss = st_multiselect u.
Proof.
  destruct data as [|rows]; [discriminate|].
  unfold render_sidebar. simpl.
  destruct (st_date_input u _) as [picked|e]; simpl; [|discriminate].
  intros [= <- <-]. by exists rows, picked.
Qed.

(** C7: what the filter block returns is a subsequence of the rows of [data],
    in their order; and on a loaded frame with a tuple of days in the session
    it does return. *)
Theorem apply_filters_subsequence ss data :
  (∀ fd, apply_filters ss data = Ok fd → records fd `sublist_of` records data)
  ∧ (∀ rows dr, data = Table rows → date_range ss = Some dr →
       ∃ kept, apply_filters ss data = Ok (Table kept) ∧ kept `sublist_of` rows).
Proof.
  split.
  - intros fd. apply apply_filters_sublist.
  - intros rows dr -> Hdr. eexists. split.
    + by apply (apply_filters_Table ss dr).
    + apply sublist_filter.
Qed.

(** C4, as stated, fails: with the date range absent, as the session
    default has it, the filter block raises. *)
Lemma filter_raises_without_date_range :
  date_range initial_session = None
  ∧ apply_filters initial_session sample = Raise TypeError
  ∧ apply_filters (mkSession "All" None []) sample = Raise TypeError.
Proof. by vm_compute. Qed.

(** C4, as the code has it: on a loaded frame and a session whose date range
    is a tuple of days, the filter block returns, and a tuple that does not
    have two entries restricts nothing.  The sidebar, which runs first,
    leaves such a frame and session. *)
Theorem filter_total_on_partial_range :
  (∀ rows sel dr sf,
     let ss := mkSession sel (Some dr) sf in
     apply_filters ss (Table rows) = Ok (Table (filter (keeps ss) rows))
     ∧ (length dr ≠ 2%nat →
          (∀ fd, filter_date ss fd = Ok fd)
          ∧ apply_filters ss (Table rows)
            = Ok (Table (filter (λ r, airline_ok ss r ∧ sentiment_ok ss r) rows))))
  ∧ (∀ u data ss0 shown ss,
       render_sidebar u data ss0 = (shown, Ok ss) →
       (∃ rows dr, data = Table rows ∧ date_range ss = Some dr)
       ∧ returns (apply_filters ss data)).
Proof.
  split.
  - intros rows sel dr sf ss.
    assert (Hall : apply_filters ss (Table rows) = Ok (Table (filter (keeps ss) rows)))
      by (by apply (apply_filters_Table ss dr)).
    split; [done|]. intros Hlen. split.
    + intros fd. unfold filter_date. simpl. by rewrite bool_decide_eq_false_2.
    + rewrite Hall. do 2 f_equal. apply list_filter_iff. intros r.
      unfold keeps, date_ok. simpl.
      destruct dr as [|a [|b [|c dr]]]; simpl in *; tauto.
  - intros u data ss0 shown ss Hside.
    destruct (render_sidebar_Ok _ _ _ _ _ Hside) as (rows & dr & -> & Hdr & _).
    split; [by eauto|]. eexists. by apply (apply_filters_Table ss dr).
Qed.

(** C1, as the code has it: with no sentiment selected the sentiment test is
    switched off, and the block returns what the airline and date steps
    return. *)
Theorem empty_sentiment_filter_restricts_nothing ss data :
  sentiment_filter ss = [] →
  apply_filters ss data = filter_airline ss data ≫= filter_date ss
  ∧ (∀ rows dr, data = Table rows → date_range ss = Some dr →
       apply_filters ss data
       = Ok (Table (filter (λ r, airline_ok ss r ∧ date_ok ss r) rows))).
Proof.
  intros Hsf. split.
  - unfold apply_filters. destruct (filter_airline ss data) as [fd|e]; [|done]. simpl.
    destruct (filter_date ss fd) as [fd'|e]; [|done]. simpl.
    unfold filter_sentiment. by rewrite bool_decide_eq_false_2 by (by intros []).
  - intros rows dr -> Hdr. rewrite (apply_filters_Table ss dr) by done.
    do 2 f_equal. apply list_filter_iff. intros r. unfold keeps, sentiment_ok. tauto.
Qed.

Lemma empty_sentiment_filter_restricts_nothing_witness :
  apply_filters (mkSession "All" (Some [16483; 16485]) []) sample
  = filter_airline (mkSession "All" (Some [16483; 16485]) []) sample
      ≫= filter_date (mkSession "All" (Some [16483; 16485]) [])
  ∧ (∀ rows dr, sample = Table rows →
       date_range (mkSession "All" (Some [16483; 16485]) []) = Some dr →
       apply_filters (mkSession "All" (Some [16483; 16485]) []) sample
       = Ok (Table (filter (λ r, airline_ok (mkSession "All" (Some [16483; 16485]) []) r
                                 ∧ date_ok (mkSession "All" (Some [16483; 16485]) []) r) rows))).
Proof.
  apply (empty_sentiment_filter_restricts_nothing (mkSession "All" (Some [16483; 16485]) []) sample).
  reflexivity.
Defined.

(** C1, as stated, fails: nothing is selected and every row comes back. *)
Lemma empty_sentiment_filter_returns_rows :
  sentiment_filter (mkSession "All" (Some [16483; 16485]) []) = []
  ∧ apply_filters (mkSession "All" (Some [16483; 16485]) []) sample = Ok sample
  ∧ records sample ≠ [].
Proof. by vm_compute. Qed.

(** With a sentiment selected, every row returned carries a selected one. *)
Lemma nonempty_sentiment_filter_members ss data fd :
  sentiment_filter ss ≠ [] →
  apply_filters ss data = Ok fd →
  Forall (λ r, airline_sentiment r ∈ sentiment_filter ss) (records fd).
Proof.
  intros Hsf. unfold apply_filters.
  destruct (filter_airline ss data) as [fd1|e]; [|done]. simpl.
  destruct (filter_date ss fd1) as [[|rows]|e]; [| |done]; simpl.
  - unfold filter_sentiment. by rewrite bool_decide_eq_true_2.
  - rewrite filter_sentiment_Table. intros [= <-]. simpl.
    apply Forall_forall. intros r [[?|?] _]%list_elem_of_filter; done.
Qed.

(** C10: the string "All" is the wildcard, also when an airline bears that
    name: with it selected the airline step returns the frame as it is, so
    every row comes back when the other two steps restrict nothing; and
    whatever is selected, the airline step keeps either all rows or no row
    of the airline named "All". *)
Theorem wildcard_shadows_airline_named_All :
  (∀ ss data, selected_airline ss = "All" → filter_airline ss data = Ok data)
  ∧ (∀ rows dr sf,
       length dr ≠ 2%nat →
       sf = [] ∨ Forall (λ r, airline_sentiment r ∈ sf) rows →
       apply_filters (mkSession "All" (Some dr) sf) (Table rows) = Ok (Table rows))
  ∧ (∀ ss rows, ∃ kept,
       filter_airline ss (Table rows) = Ok (Table kept)
       ∧ (kept = rows ∨ Forall (λ r, airline r ≠ "All") kept)).
Proof.
  split; [|split].
  - intros ss data Hsel. unfold filter_airline.
    by rewrite bool_decide_eq_false_2 by (by intros []).
  - intros rows dr sf Hlen Hsf.
    rewrite (apply_filters_Table _ dr) by done.
    rewrite filter_all_elem; [done|].
    intros r Hr. unfold keeps, airline_ok, date_ok, sentiment_ok. simpl.
    split; [by left|]. split.
    + by destruct dr as [|a [|b [|c dr]]].
    + destruct Hsf as [->|Hall]; [by left|right].
      by eapply Forall_forall in Hall.
  - intros ss rows. eexists. split; [apply filter_airline_Table|].
    destruct (decide (selected_airline ss = "All")) as [Hsel|Hsel].
    + left. apply filter_all. intros r. by left.
    + right. apply Forall_forall. intros r [[?|Hr] _]%list_elem_of_filter; congruence.
Qed.

(** The select box of the sample offers "All" twice; both entries store the
    same string. *)
Example airline_options_sample :
  airline_options sample = Ok ["All"; "All"; "Delta"; "United"].
Proof. by vm_compute. Qed.

Example sidebar_pick_of_airline_named_All :
  render_sidebar picks_airline_named_All sample initial_session
  = ([], Ok (mkSession "All" (Some [16483; 16485])
               ["positive"; "neutral"; "negative"]))
  ∧ apply_filters (mkSession "All" (Some [16483; 16485])
                     ["positive"; "neutral"; "negative"]) sample
    = Ok sample.
Proof. by vm_compute. Qed.

(** * Key metrics *)

Lemma sentiment_count_Table s rows :
  sentiment_count s (Table rows) = Ok (count_of s rows).
Proof.
  unfold sentiment_count, sentiment_rows, count_of, len. simpl.
  by rewrite series_eq_mask, (select_mask (λ r, airline_sentiment r = s)).
Qed.

(** * Division of ints *)

Lemma round_half_even_near n d :
  0 < d →
  2 * n - d ≤ 2 * (round_half_even n d * d) ≤ 2 * n + d.
Proof.
  intros Hd. unfold round_half_even.
  pose proof (Z.div_mod n d ltac:(lia)) as Hn.
  pose proof (Z.mod_pos_bound n d Hd) as Hr.
  repeat case_match; rewrite ?Z.ltb_lt, ?Z.ltb_ge in *; nia.
Qed.

Lemma round_half_even_le n d k :
  0 < d → n ≤ k * d → round_half_even n d ≤ k.
Proof.
  intros Hd Hn. unfold round_half_even.
  pose proof (Z.div_mod n d ltac:(lia)) as Hdm.
  pose proof (Z.mod_pos_bound n d Hd) as Hr.
  assert (n `div` d ≤ k) as Hq by nia.
  assert (n `div` d = k → n `mod` d = 0) as Hk by nia.
  repeat case_match; rewrite ?Z.ltb_lt, ?Z.ltb_ge in *; try lia.
Qed.

Lemma round_half_even_nonneg n d :
  0 < d → 0 ≤ n → 0 ≤ round_half_even n d.
Proof.
  intros Hd Hn. unfold round_half_even.
  pose proof (Z.div_pos n d Hn Hd) as Hq.
  repeat case_match; lia.
Qed.

Lemma quotient_exponent_le a b :
  0 < a → a ≤ b → quotient_exponent a b ≤ 0 ∧ (a < b → quotient_exponent a b ≤ -1).
Proof.
  intros Ha Hab. unfold quotient_exponent.
  pose proof (Z.log2_le_mono a b Hab) as Hlog.
  destruct (0 <=? Z.log2 a - Z.log2 b) eqn:He.
  - apply Z.leb_le in He. assert (Z.log2 a - Z.log2 b = 0) as -> by lia.
    rewrite Z.pow_0_r, Z.mul_1_r.
    destruct (a <? b) eqn:Hlt; [lia|]. apply Z.ltb_ge in Hlt. lia.
  - apply Z.leb_gt in He. case_match; lia.
Qed.

(** The double of a quotient [c/n] of at most one, as mantissa over a power
    of two: it is at most one, and as near to the quotient as half a unit
    in the last place allows. *)
Lemma py_truediv_fraction (c n : nat) :
  (0 < c ≤ n)%nat →
  ∃ (m : Z) (P : positive),
    py_truediv c n = Ok (m # P)
    ∧ 0 ≤ m ≤ Z.pos P
    ∧ ((c = n) → (m = Z.pos P))
    ∧ ((c ≠ n) → (2 ^ 53 ≤ Z.pos P))
    ∧ 2 * (Z.of_nat c * Z.pos P) - Z.of_nat n
      ≤ 2 * (m * Z.of_nat n)
      ≤ 2 * (Z.of_nat c * Z.pos P) + Z.of_nat n.
Proof.
  intros [Hc Hcn]. destruct n as [|n']; [lia|]. destruct c as [|c']; [lia|].
  set (a := Z.of_nat (S c')). set (b := Z.of_nat (S n')).
  assert (0 < a) as Ha by (unfold a; lia).
  assert (a ≤ b) as Hab by (unfold a, b; lia).
  destruct (quotient_exponent_le a b Ha Hab) as [He Hlt].
  unfold py_truediv, nearest_double. fold a b.
  set (e := quotient_exponent a b) in *.
  set (u := Z.max (e - 52) (-1074)).
  assert (u ≤ -52) as Hu by (unfold u; lia).
  assert ((0 <=? u) = false) as -> by (apply Z.leb_gt; lia).
  cbn [andb double_value].
  assert ((0 <=? u) = false) as -> by (apply Z.leb_gt; lia).
  set (P := 2 ^ (- u)).
  assert (0 < P) as HP by (unfold P; apply Z.pow_pos_nonneg; lia).
  exists (round_half_even (a * P) b), (Z.to_pos P).
  rewrite Z2Pos.id by done.
  split; [done|]. split; [|split; [|split]].
  - split.
    + apply round_half_even_nonneg; [lia|]. apply Z.mul_nonneg_nonneg; lia.
    + apply round_half_even_le; [lia|]. nia.
  - intros Heq. assert (a = b) as -> by (unfold a, b; lia).
    pose proof (round_half_even_near (b * P) b ltac:(lia)) as Hnear. nia.
  - intros Hne. assert (a < b) as Hab' by (unfold a, b; lia).
    specialize (Hlt Hab'). unfold P. apply Z.pow_le_mono_r; lia.
  - pose proof (round_half_even_near (a * P) b ltac:(lia)) as Hnear. lia.
Qed.

Lemma py_truediv_zero (n : nat) : (0 < n)%nat → py_truediv 0 n = Ok 0%Q.
Proof. by destruct n; [lia|]. Qed.

(** The share of a count in a total: a double between 0 and 1, within
    [2^-54] of the exact ratio. *)
Lemma py_truediv_share (c n : nat) :
  (c ≤ n)%nat → (0 < n)%nat →
  ∃ v, py_truediv c n = Ok v
       ∧ (0 <= v)%Q ∧ (v <= 1)%Q
       ∧ (Qabs (v - (Z.of_nat c # Pos.of_nat n)) <= 1 # 18014398509481984)%Q.
Proof.
  intros Hcn Hn.
  assert (Z.pos (Pos.of_nat n) = Z.of_nat n) as Hden by lia.
  destruct c as [|c'].
  - exists 0%Q. split; [by apply py_truediv_zero|].
    split; [done|]. split; [done|].
    apply Qabs_Qle_condition. unfold Qle. cbn. lia.
  - destruct (py_truediv_fraction (S c') n ltac:(lia))
      as (m & P & Hdiv & [Hm0 Hm1] & Heq & Hne & Hnear).
    exists (m # P). split; [done|].
    split; [unfold Qle; cbn; lia|]. split; [unfold Qle; cbn; lia|].
    apply Qabs_Qle_condition.
    set (C := Z.of_nat (S c')) in *. set (N := Z.of_nat n) in *.
    assert (- (Z.pos P * N) ≤ (m * N - C * Z.pos P) * 18014398509481984
            ≤ Z.pos P * N) as [Hlo Hhi].
    { destruct (decide (S c' = n)) as [Hcase|Hcase].
      - specialize (Heq Hcase). assert (C = N) as -> by (unfold C, N; lia).
        rewrite Heq. replace (Z.pos P * N - N * Z.pos P) with 0 by lia. lia.
      - specialize (Hne Hcase).
        change (2 ^ 53) with 9007199254740992 in Hne.
        assert (0 < N) by (unfold N; lia). nia. }
    unfold Qle, Qminus, Qplus, Qopp.
    cbn [Qnum Qden]. rewrite !Pos2Z.inj_mul, Hden. fold N. split; lia.
Qed.

Lemma count_of_three rows :
  Forall (λ r, airline_sentiment r ∈ ["positive"; "neutral"; "negative"]) rows →
  (count_of "positive" rows + count_of "neutral" rows + count_of "negative" rows
   = length rows)%nat.
Proof.
  unfold count_of. induction 1 as [|r rows Hr _ IH]; [done|].
  rewrite !filter_cons. simpl length. rewrite <- IH.
  set_unfold in Hr. destruct Hr as [->|[->|[->|[]]]];
    repeat case_decide; simplify_eq; simpl; lia.
Qed.

Lemma shares_sum_to_one (a b c : nat) (n : positive) :
  (a + b + c)%nat = Pos.to_nat n →
  ((Z.of_nat a # n) + (Z.of_nat b # n) + (Z.of_nat c # n) == 1)%Q.
Proof.
  intros Hsum. unfold Qeq, Qplus. simpl.
  assert (Z.of_nat a + Z.of_nat b + Z.of_nat c = Z.pos n)%Z as Hz by lia.
  rewrite !Pos2Z.inj_mul. nia.
Qed.

Lemma ratio_is_quotient (c n : nat) :
  (Z.of_nat c # Pos.of_nat (S n) == inject_Z (Z.of_nat c) / inject_Z (Z.of_nat (S n)))%Q.
Proof.
  rewrite (Qmake_Qdiv (Z.of_nat c) (Pos.of_nat (S n))).
  replace (Z.pos (Pos.of_nat (S n))) with (Z.of_nat (S n)) by lia. reflexivity.
Qed.

Lemma metric_Table label s r rows :
  ∃ share,
    metric label s (Table (r :: rows))
    = ([st_metric label (count_of s (r :: rows)) share], Ok ())
    ∧ py_truediv (count_of s (r :: rows)) (length (r :: rows)) = Ok share
    ∧ (0 <= share)%Q ∧ (share <= 1)%Q
    ∧ (Qabs (share - (Z.of_nat (count_of s (r :: rows))
                      # Pos.of_nat (length (r :: rows))))
       <= 1 # 18014398509481984)%Q.
Proof.
  pose proof (length_filter (λ r', airline_sentiment r' = s) (r :: rows)) as Hle.
  fold (count_of s (r :: rows)) in Hle.
  destruct (py_truediv_share (count_of s (r :: rows)) (length (r :: rows)))
    as (share & Hdiv & H0 & H1 & Hnear); [done|simpl; lia|].
  exists share. split; [|done].
  unfold metric. rewrite sentiment_count_Table. unfold lift, len. simpl records.
  cbn [mbind UI_bind]. rewrite Hdiv. reflexivity.
Qed.

Lemma key_metrics_Table r rows :
  let fd := r :: rows in
  ∃ pos neu neg,
    key_metrics (Table fd)
    = ([st_metric "Positive Tweets" (count_of "positive" fd) pos;
        st_metric "Neutral Tweets" (count_of "neutral" fd) neu;
        st_metric "Negative Tweets" (count_of "negative" fd) neg],
       Ok ())
    ∧ py_truediv (count_of "positive" fd) (length fd) = Ok pos
    ∧ py_truediv (count_of "neutral" fd) (length fd) = Ok neu
    ∧ py_truediv (count_of "negative" fd) (length fd) = Ok neg.
Proof.
  intros fd. subst fd.
  destruct (metric_Table "Positive Tweets" "positive" r rows) as (pos & Hp & Hdp & _).
  destruct (metric_Table "Neutral Tweets" "neutral" r rows) as (neu & Hu & Hdu & _).
  destruct (metric_Table "Negative Tweets" "negative" r rows) as (neg & Hg & Hdg & _).
  exists pos, neu, neg. split; [|done].
  unfold key_metrics. by rewrite Hp, Hu, Hg.
Qed.

Lemma near_sum_near_one (p q r x y z e : Q) :
  (x + y + z == 1)%Q →
  (Qabs (p - x) <= e)%Q → (Qabs (q - y) <= e)%Q → (Qabs (r - z) <= e)%Q →
  (Qabs (p + q + r - 1) <= e + e + e)%Q.
Proof.
  intros Hone Hp Hq Hr.
  assert (p + q + r - 1 == (p - x) + (q - y) + (r - z))%Q as ->
    by (rewrite <- Hone; ring).
  eapply Qle_trans; [apply Qabs_triangle|].
  eapply Qle_trans; [apply Qplus_le_compat; [apply Qabs_triangle|apply Qle_refl]|].
  apply Qplus_le_compat; [apply Qplus_le_compat|]; assumption.
Qed.

(** C8: on rows whose sentiments are among the three labels the three counts
    add up to the number of rows, and when there is a row the three metrics
    are shown with the shares count/total as Python divides them: each is
    the double within [2^-54] of its ratio, and the three add up to one
    within [3 * 2^-54]. *)
Theorem key_metrics_consistent rows :
  Forall (λ r, airline_sentiment r ∈ ["positive"; "neutral"; "negative"]) rows →
  sentiment_count "positive" (Table rows) = Ok (count_of "positive" rows)
  ∧ sentiment_count "neutral" (Table rows) = Ok (count_of "neutral" rows)
  ∧ sentiment_count "negative" (Table rows) = Ok (count_of "negative" rows)
  ∧ (count_of "positive" rows + count_of "neutral" rows + count_of "negative" rows
     = len (Table rows))%nat
  ∧ ((0 < len (Table rows))%nat →
     ∃ pos neu neg : Q,
       key_metrics (Table rows)
       = ([st_metric "Positive Tweets" (count_of "positive" rows) pos;
           st_metric "Neutral Tweets" (count_of "neutral" rows) neu;
           st_metric "Negative Tweets" (count_of "negative" rows) neg],
          Ok ())
       ∧ py_truediv (count_of "positive" rows) (len (Table rows)) = Ok pos
       ∧ py_truediv (count_of "neutral" rows) (len (Table rows)) = Ok neu
       ∧ py_truediv (count_of "negative" rows) (len (Table rows)) = Ok neg
       ∧ (Qabs (pos - inject_Z (Z.of_nat (count_of "positive" rows))
                      / inject_Z (Z.of_nat (len (Table rows))))
          <= 1 # 18014398509481984)%Q
       ∧ (Qabs (neu - inject_Z (Z.of_nat (count_of "neutral" rows))
                      / inject_Z (Z.of_nat (len (Table rows))))
          <= 1 # 18014398509481984)%Q
       ∧ (Qabs (neg - inject_Z (Z.of_nat (count_of "negative" rows))
                      / inject_Z (Z.of_nat (len (Table rows))))
          <= 1 # 18014398509481984)%Q
       ∧ (Qabs (pos + neu + neg - 1) <= 3 # 18014398509481984)%Q).
Proof.
  intros Hlabels. rewrite !sentiment_count_Table.
  pose proof (count_of_three rows Hlabels) as Hsum.
  do 3 (split; [done|]). split; [done|].
  intros Hlen. destruct rows as [|r rows]; [vm_compute in Hlen; lia|].
  destruct (metric_Table "Positive Tweets" "positive" r rows)
    as (pos & Hp & Hdp & _ & _ & Np).
  destruct (metric_Table "Neutral Tweets" "neutral" r rows)
    as (neu & Hu & Hdu & _ & _ & Nu).
  destruct (metric_Table "Negative Tweets" "negative" r rows)
    as (neg & Hg & Hdg & _ & _ & Ng).
  exists pos, neu, neg. unfold len. simpl records.
  split; [unfold key_metrics; by rewrite Hp, Hu, Hg|].
  do 3 (split; [done|]).
  change (length (r :: rows)) with (S (length rows)) in *.
  rewrite <- !ratio_is_quotient.
  do 3 (split; [done|]).
  assert (3 # 18014398509481984
          == (1 # 18014398509481984) + (1 # 18014398509481984)
             + (1 # 18014398509481984))%Q as -> by reflexivity.
  eapply near_sum_near_one; [|exact Np|exact Nu|exact Ng].
  apply shares_sum_to_one. rewrite Hsum. simpl length. lia.
Qed.

Lemma key_metrics_consistent_witness :
  Forall (λ r, airline_sentiment r ∈ ["positive"; "neutral"; "negative"])
    [tweet_delta; tweet_united; tweet_all]
  ∧ (count_of "positive" [tweet_delta; tweet_united; tweet_all]
     + count_of "neutral" [tweet_delta; tweet_united; tweet_all]
     + count_of "negative" [tweet_delta; tweet_united; tweet_all]
     = len sample)%nat.
Proof.
  assert (Forall (λ r, airline_sentiment r ∈ ["positive"; "neutral"; "negative"])
            [tweet_delta; tweet_united; tweet_all]) as Hlabels.
  { repeat constructor; apply bool_decide_unpack; by vm_compute. }
  split; [exact Hlabels|].
  exact (proj1 (proj2 (proj2 (proj2
    (key_metrics_consistent [tweet_delta; tweet_united; tweet_all] Hlabels))))).
Defined.

(** The division agrees with the kernel's binary64 division. *)
Example py_truediv_as_the_kernel_divides :
  (Ok <$> SF_value (Prim2SF (1 / 3)%float)) = Some (py_truediv 1 3)
  ∧ (Ok <$> SF_value (Prim2SF (2 / 3)%float)) = Some (py_truediv 2 3)
  ∧ (Ok <$> SF_value (Prim2SF (1 / 10)%float)) = Some (py_truediv 1 10)
  ∧ (Ok <$> SF_value (Prim2SF (463 / 4018)%float)) = Some (py_truediv 463 4018)
  ∧ (Ok <$> SF_value (Prim2SF (7 / 2)%float)) = Some (py_truediv 7 2)
  ∧ py_truediv 5 0 = Raise ZeroDivisionError
  ∧ nearest_double (2 ^ 1024) 1 = (2 ^ 52, 972)
  ∧ nearest_double 1 (2 ^ 1075) = (0, -1074)
  ∧ nearest_double 3 (2 ^ 1075) = (2, -1074).
Proof. repeat split; by vm_compute. Qed.

(** C2: with no row left the first metric divides by zero.  The session
    reached from the sample when Delta and 2015-02-19 are picked leaves no
    row, and the run ends in [ZeroDivisionError] after the header. *)
Theorem key_metrics_divide_by_zero textblob_polarity py_isspace wordcloud_generate :
  key_metrics (Table []) = ([], Raise ZeroDivisionError)
  ∧ render_sidebar delta_on_the_19th sample initial_session
    = ([], Ok (mkSession "Delta" (Some [16485; 16485])
                 ["positive"; "neutral"; "negative"]))
  ∧ apply_filters (mkSession "Delta" (Some [16485; 16485])
                     ["positive"; "neutral"; "negative"]) sample
    = Ok (Table [])
  ∧ main textblob_polarity py_isspace wordcloud_generate delta_on_the_19th
      initial_session sample
    = ([st_header 0], Raise ZeroDivisionError).
Proof. repeat split; by vm_compute. Qed.

(** Where rows are left, each share is the double of the count over the
    total. *)
Lemma shares_when_rows_are_left r rows :
  ∃ pos neu neg,
    key_metrics (Table (r :: rows))
    = ([st_metric "Positive Tweets" (count_of "positive" (r :: rows)) pos;
        st_metric "Neutral Tweets" (count_of "neutral" (r :: rows)) neu;
        st_metric "Negative Tweets" (count_of "negative" (r :: rows)) neg],
       Ok ())
    ∧ py_truediv (count_of "positive" (r :: rows)) (length (r :: rows)) = Ok pos
    ∧ py_truediv (count_of "neutral" (r :: rows)) (length (r :: rows)) = Ok neu
    ∧ py_truediv (count_of "negative" (r :: rows)) (length (r :: rows)) = Ok neg.
Proof. apply key_metrics_Table. Qed.

(** * Text corpus *)

Lemma sentiment_rows_Table s rows :
  sentiment_rows s (Table rows)
  = Ok (Table (filter (λ r, airline_sentiment r = s) rows)).
Proof.
  unfold sentiment_rows. simpl.
  by rewrite series_eq_mask, (select_mask (λ r, airline_sentiment r = s)).
Qed.

Lemma py_join_concat sep l : py_join sep l = String.concat sep l.
Proof.
  induction l as [|x l IH]; [done|]. simpl. rewrite IH. by destruct l.
Qed.

Lemma text_data_Table rows :
  text_data (Table rows)
  = match mapM id (text <$> rows) with
    | Some texts => Ok (String.concat " " texts)
    | None => Raise TypeError
    end.
Proof.
  unfold text_data, py_join_cells. simpl.
  destruct (mapM id (text <$> rows)); [|done]. by rewrite py_join_concat.
Qed.

(** C9: for rows that all have a text the corpus is as the claim says; a
    row whose text field was empty has no string to join, and the run ends
    in [TypeError] at the join, after the charts. *)
Theorem corpus_raises_on_missing_text textblob_polarity py_isspace wordcloud_generate :
  text tweet_no_text = None
  ∧ text_data (Table [tweet_delta; tweet_no_text]) = Raise TypeError
  ∧ (sentiment_rows "positive" (Table [tweet_delta; tweet_no_text; tweet_united])
       ≫= text_data) = Raise TypeError
  ∧ (sentiment_rows "negative" (Table [tweet_delta; tweet_no_text; tweet_united])
       ≫= text_data) = Ok "lost my bag"
  ∧ (main textblob_polarity py_isspace wordcloud_generate default_user
       initial_session (Table [tweet_delta; tweet_no_text])).2
    = Raise TypeError.
Proof. repeat split; by vm_compute. Qed.

Example corpus_of_the_sample :
  (sentiment_rows "negative" sample ≫= text_data) = Ok "lost my bag"
  ∧ (sentiment_rows "mixed" sample ≫= text_data) = Ok ""
  ∧ py_join " " ["a"; "b c"; "d"] = "a b c d".
Proof. by vm_compute. Qed.

(** * Whole runs *)

Example main_on_the_sample textblob_polarity :
  main textblob_polarity never_blank cloud_unless_the default_user
    initial_session sample
  = ([st_header 3;
      st_metric "Positive Tweets" 1 (6004799503160661 # 18014398509481984);
      st_metric "Neutral Tweets" 1 (6004799503160661 # 18014398509481984);
      st_metric "Negative Tweets" 1 (6004799503160661 # 18014398509481984);
      st_area_chart
        {| index := [16483; 16485];
           columns := ["negative"; "neutral"; "positive"];
           values := [[None; None; Some 1%nat]; [Some 1%nat; Some 1%nat; None]] |};
      st_bar_chart
        {| index := ["All"; "Delta"; "United"];
           columns := ["negative"; "neutral"; "positive"];
           values := [[None; Some 1%nat; None]; [None; None; Some 1%nat];
                      [Some 1%nat; None; None]] |};
      st_pyplot (word_cloud_figure "great flight" "viridis")],
     Ok ()).
Proof. by vm_compute. Qed.

Example two_rows_filtered_by_airline_A :
  apply_filters (mkSession "A" (Some [19358; 19359])
                   ["positive"; "neutral"; "negative"]) (Table [tweet_A; tweet_B])
  = Ok (Table [tweet_A])
  ∧ key_metrics (Table [tweet_A])
    = ([st_metric "Positive Tweets" 1 (4503599627370496 # 4503599627370496);
        st_metric "Neutral Tweets" 0 (0 # 1);
        st_metric "Negative Tweets" 0 (0 # 1)], Ok ())
  ∧ (sentiment_rows "negative" (Table [tweet_A; tweet_B]) ≫= text_data)
    = Ok "two hours late"
  ∧ (sentiment_rows "neutral" (Table [tweet_A; tweet_B]) ≫= text_data) = Ok "".
Proof. by vm_compute. Qed.

(** * Loading *)

(** C3: when the file cannot be read or a timestamp does not parse, the error
    is shown and the empty frame takes the place of the data; the sidebar
    then looks up the airline column, which that frame does not have, and
    the run ends in [KeyError]. *)
Theorem failed_load_ends_in_KeyError parse textblob_polarity py_isspace
    wordcloud_generate u :
  (∀ e, load_data parse (Raise e) = ([st_error e], Ok EmptyFrame)
        ∧ script parse textblob_polarity py_isspace wordcloud_generate (Raise e) u
          = ([st_error e], Raise (KeyError "airline")))
  ∧ (∀ raw, mapM parse (raw_tweet_created <$> raw) = None →
        load_data parse (Ok raw) = ([st_error ValueError], Ok EmptyFrame)
        ∧ script parse textblob_polarity py_isspace wordcloud_generate (Ok raw) u
          = ([st_error ValueError], Raise (KeyError "airline"))).
Proof.
  split.
  - intros e. by split.
  - intros raw Hparse. unfold script, load_data, pd_to_datetime. simpl.
    by rewrite Hparse.
Qed.

(** A file that loads gives the table of its rows. *)
Lemma load_data_Ok parse raw created :
  mapM parse (raw_tweet_created <$> raw) = Some created →
  load_data parse (Ok raw) = ([], Ok (Table (zip_with with_created raw created))).
Proof. intros Hparse. unfold load_data, pd_to_datetime. simpl. by rewrite Hparse. Qed.

(** The filter block itself has no answer for the session default [None] or,
    once a step is active, for the empty frame; neither reaches it, as the
    sidebar runs first. *)
Lemma filter_date_None ss fd :
  date_range ss = None → filter_date ss fd = Raise TypeError.
Proof. intros Hdr. unfold filter_date. by rewrite Hdr. Qed.

Lemma filter_airline_EmptyFrame ss :
  selected_airline ss ≠ "All" →
  filter_airline ss EmptyFrame = Raise (KeyError "airline").
Proof. intros Hsel. unfold filter_airline. by rewrite bool_decide_eq_true_2. Qed.

(** * Polarity threshold *)

Lemma below_minus_tenth_not_above_tenth (p : float) :
  (p <? - py_0_1)%float = true → (py_0_1 <? p)%float = false.
Proof.
  rewrite !ltb_spec.
  replace (Prim2SF (- py_0_1)) with (S754_finite true 7205759403792794 (-56))
    by (by vm_compute).
  replace (Prim2SF py_0_1) with (S754_finite false 7205759403792794 (-56))
    by (by vm_compute).
  destruct (Prim2SF p) as [[]|[]| |[] m e]; try done.
Qed.

(** C5: the label is "positive" exactly when the polarity is above 0.1,
    "negative" exactly when it is below -0.1, "neutral" in every other case,
    among them a polarity of exactly 0.1; the score is returned as computed.
    0.1 is the literal of the source: the double 0x1.999999999999ap-4, of
    value 7205759403792794 / 2^56, the double nearest to one tenth. *)
Theorem analyze_sentiment_thresholds (textblob_polarity : string → float) (text : string) :
  let polarity := textblob_polarity text in
  let label := (analyze_sentiment textblob_polarity text).1 in
  (analyze_sentiment textblob_polarity text).2 = polarity
  ∧ (label = "positive" ↔ (0x1.999999999999ap-4 <? polarity)%float = true)
  ∧ (label = "negative" ↔ (polarity <? - 0x1.999999999999ap-4)%float = true)
  ∧ (label = "neutral" ↔ (0x1.999999999999ap-4 <? polarity)%float = false
                          ∧ (polarity <? - 0x1.999999999999ap-4)%float = false)
  ∧ analyze_sentiment (λ _, 0x1.999999999999ap-4%float) text
    = ("neutral", 0x1.999999999999ap-4%float)
  ∧ analyze_sentiment (λ _, (- 0x1.999999999999ap-4)%float) text
    = ("neutral", (- 0x1.999999999999ap-4)%float)
  ∧ SF_value (Prim2SF 0x1.999999999999ap-4)
    = Some (7205759403792794 # 72057594037927936)
  ∧ (Qabs ((7205759403792794 # 72057594037927936) - (1 # 10))
     < 1 # 144115188075855872)%Q
  ∧ py_truediv 1 10 = Ok (7205759403792794 # 72057594037927936).
Proof.
  intros polarity label. subst label.
  assert (∀ P1 P2 P3 P4 P5 P6 P7 : Prop,
            P1 ∧ P2 ∧ P3 ∧ P4 → P5 ∧ P6 ∧ P7 → P1 ∧ P2 ∧ P3 ∧ P4 ∧ P5 ∧ P6 ∧ P7)
    as Hsplit by tauto.
  apply Hsplit; [|repeat split; by vm_compute].
  change (- 0x1.999999999999ap-4)%float with (- py_0_1)%float.
  change (0x1.999999999999ap-4)%float with py_0_1.
  unfold analyze_sentiment. fold polarity.
  pose proof (below_minus_tenth_not_above_tenth polarity) as Hexcl.
  destruct (py_0_1 <? polarity)%float eqn:Hpos;
    destruct (polarity <? - py_0_1)%float eqn:Hneg; simpl;
    try (specialize (Hexcl eq_refl); discriminate);
    repeat split; try done; try (intros [? ?]; done).
Qed.

Example analyze_sentiment_boundaries :
  analyze_sentiment (λ _, 0%float) "" = ("neutral", 0%float)
  ∧ analyze_sentiment (λ _, 0x1.9999b4718c345p-4%float) "good"
    = ("positive", 0x1.9999b4718c345p-4%float)
  ∧ analyze_sentiment (λ _, (-1)%float) "awful" = ("negative", (-1)%float)
  ∧ analyze_sentiment (λ _, nan) "?" = ("neutral", nan).
Proof. by vm_compute. Qed.

(** * Grouped counts and the daily table *)

Section group_size.
Context `{Countable K} (key : Tweet → K).

Lemma count_key_lookup (m : gmap K nat) k k' :
  count_key m k' !! k
  = if decide (k' = k) then Some (S (default 0%nat (m !! k))) else m !! k.
Proof.
  unfold count_key. case_decide as Hk.
  - subst k'. by rewrite lookup_insert_eq.
  - by rewrite lookup_insert_ne.
Qed.

Lemma foldl_count_key_lookup (m : gmap K nat) rows k :
  foldl (λ m r, count_key m (key r)) m rows !! k
  = match length (filter (λ r, key r = k) rows) with
    | O => m !! k
    | S n => Some (default 0 (m !! k) + S n)%nat
    end.
Proof.
  revert m. induction rows as [|r rows IH]; intros m; [done|].
  simpl foldl. rewrite IH, count_key_lookup, filter_cons.
  destruct (decide (key r = k)) as [Hk|Hk]; simpl.
  - destruct (length _); f_equal; lia.
  - done.
Qed.

Lemma group_size_lookup rows k :
  group_size key rows !! k
  = match length (filter (λ r, key r = k) rows) with
    | O => None
    | n => Some n
    end.
Proof.
  unfold group_size. rewrite foldl_count_key_lookup, lookup_empty.
  by destruct (length _).
Qed.

Lemma group_size_is_Some rows k :
  is_Some (group_size key rows !! k) ↔ ∃ r, r ∈ rows ∧ key r = k.
Proof.
  rewrite group_size_lookup. split.
  - destruct (filter _ rows) as [|r l] eqn:Hf; simpl; [by intros [? ?]|].
    intros _. exists r.
    assert (r ∈ filter (λ r, key r = k) rows) as Hr by (rewrite Hf; left).
    apply list_elem_of_filter in Hr. tauto.
  - intros (r & Hr & Hk).
    assert (r ∈ filter (λ r, key r = k) rows) as Hin
      by (by apply list_elem_of_filter).
    destruct (filter _ rows); [by apply elem_of_nil in Hin|]. simpl. eauto.
Qed.
End group_size.

Lemma time_series_lookup rows d s :
  group_size day_and_sentiment rows !! (d, s) = cell rows d s.
Proof. by rewrite group_size_lookup. Qed.

Section unstack.
Context `{Countable K} (sort : list K → list K).
Hypothesis sort_perm : ∀ l, sort l ≡ₚ l.

Lemma unstack_index (series : gmap (K * string) nat) k :
  k ∈ index (unstack sort series) ↔ ∃ c, is_Some (series !! (k, c)).
Proof.
  unfold unstack. simpl. rewrite sort_perm, elem_of_remove_dups.
  rewrite list_elem_of_fmap. split.
  - intros ([k' c] & -> & Hin).
    apply list_elem_of_fmap in Hin as ([[k'' c'] n] & [= <- <-] & Hin).
    apply elem_of_map_to_list in Hin. by eauto.
  - intros (c & n & Hn). exists (k, c). split; [done|].
    apply list_elem_of_fmap. exists ((k, c), n). split; [done|].
    by apply elem_of_map_to_list.
Qed.

Lemma unstack_columns (series : gmap (K * string) nat) c :
  c ∈ columns (unstack sort series) ↔ ∃ k, is_Some (series !! (k, c)).
Proof.
  unfold unstack, sorted. simpl.
  rewrite merge_sort_Permutation, elem_of_remove_dups.
  rewrite list_elem_of_fmap. split.
  - intros ([k c'] & -> & Hin).
    apply list_elem_of_fmap in Hin as ([[k' c''] n] & [= <- <-] & Hin).
    apply elem_of_map_to_list in Hin. by eauto.
  - intros (k & n & Hn). exists (k, c). split; [done|].
    apply list_elem_of_fmap. exists ((k, c), n). split; [done|].
    by apply elem_of_map_to_list.
Qed.

Lemma unstack_index_NoDup (series : gmap (K * string) nat) :
  NoDup (index (unstack sort series)).
Proof. unfold unstack. simpl. rewrite sort_perm. apply NoDup_remove_dups. Qed.

Lemma unstack_values (series : gmap (K * string) nat) :
  values (unstack sort series)
  = (λ k, (λ c, series !! (k, c)) <$> columns (unstack sort series))
      <$> index (unstack sort series).
Proof. done. Qed.
End unstack.

(** C6, as the code has it: the daily table has one row for each day on
    which some row of the filtered data was created, in ascending order and
    without repetition, one column for each sentiment that occurs, and in
    each cell the count of that day and sentiment where there is a row for
    them and a missing value where there is none. *)
Theorem time_df_is_sparse rows :
  ∃ df, time_df (Table rows) = Ok df
  ∧ (∀ d, d ∈ index df ↔ ∃ r, r ∈ rows ∧ date_of (tweet_created r) = d)
  ∧ NoDup (index df)
  ∧ StronglySorted Z.le (index df)
  ∧ (∀ s, s ∈ columns df ↔ ∃ r, r ∈ rows ∧ airline_sentiment r = s)
  ∧ values df = (λ d, (λ s, cell rows d s) <$> columns df) <$> index df
  ∧ (∀ d s, cell rows d s = None ↔ count_on (d, s) rows = 0%nat)
  ∧ (∀ d s n, cell rows d s = Some n ↔ count_on (d, s) rows = n ∧ (0 < n)%nat).
Proof.
  eexists. split; [done|]. simpl records.
  pose proof (merge_sort_Permutation Z.le) as Hperm.
  split; [|split; [|split; [|split; [|split; [|split]]]]].
  - intros d. rewrite (unstack_index _ Hperm). split.
    + intros (s & Hs). apply group_size_is_Some in Hs as (r & Hr & [= <- _]). eauto.
    + intros (r & Hr & <-). exists (airline_sentiment r).
      apply group_size_is_Some. by exists r.
  - by apply unstack_index_NoDup.
  - apply (StronglySorted_merge_sort Z.le).
  - intros s. rewrite unstack_columns. split.
    + intros (d & Hd). apply group_size_is_Some in Hd as (r & Hr & [= _ <-]). eauto.
    + intros (r & Hr & <-). exists (date_of (tweet_created r)).
      apply group_size_is_Some. by exists r.
  - rewrite unstack_values. apply list_fmap_ext. intros _ d _.
    apply list_fmap_ext. intros _ s _. apply time_series_lookup.
  - intros d s. unfold cell. by destruct (count_on _ _).
  - intros d s n. unfold cell. destruct (count_on _ _); split.
    + done.
    + intros [<- ?]. lia.
    + intros [= <-]. split; [done|lia].
    + by intros [-> _].
Qed.

(** C6, as stated, fails: the two rows are two days apart; the day between
    them has no row in the table, and each day's cell for the sentiment that
    did not occur is missing, not zero. *)
Lemma time_df_skips_days_and_zeros :
  time_df (Table [tweet_delta; tweet_united])
  = Ok {| index := [16483; 16485];
          columns := ["negative"; "positive"];
          values := [[None; Some 1%nat]; [Some 1%nat; None]] |}
  ∧ date_of (tweet_created tweet_delta) = 16483
  ∧ date_of (tweet_created tweet_united) = 16485
  ∧ (16484 ∉ [16483; 16485])
  ∧ cell [tweet_delta; tweet_united] 16483 "negative" = None.
Proof.
  do 3 (split; [by vm_compute|]). split; [|by vm_compute].
  rewrite !not_elem_of_cons. repeat split; try lia. apply not_elem_of_nil.
Qed.


(** * Further properties of the filter block *)

Lemma filter_airline_EmptyFrame_Ok ss fd :
  filter_airline ss EmptyFrame = Ok fd → fd = EmptyFrame ∧ selected_airline ss = "All".
Proof.
  unfold filter_airline. case_bool_decide as Hsel; simpl; [done|].
  intros [= <-]. split; [done|]. by destruct (decide (selected_airline ss = "All")).
Qed.

Lemma filter_date_EmptyFrame_Ok ss fd :
  filter_date ss EmptyFrame = Ok fd → fd = EmptyFrame.
Proof.
  unfold filter_date. destruct (date_range ss) as [dr|]; simpl; [|done].
  case_bool_decide; [|by intros [= <-]].
  by destruct dr as [|a [|b [|c dr]]].
Qed.

Lemma filter_sentiment_EmptyFrame_Ok ss fd :
  filter_sentiment ss EmptyFrame = Ok fd → fd = EmptyFrame.
Proof.
  unfold filter_sentiment. case_bool_decide; simpl; [done|]. by intros [= <-].
Qed.

(** X1: filtering what the filter block returned, with the same session,
    returns it unchanged. *)
Theorem apply_filters_idempotent ss data fd :
  apply_filters ss data = Ok fd → apply_filters ss fd = Ok fd.
Proof.
  destruct data as [|rows].
  - intros Hfd. pose proof Hfd as Hfd'. revert Hfd'. unfold apply_filters at 1.
    destruct (filter_airline ss EmptyFrame) as [fd1|e] eqn:H1; [|done].
    apply filter_airline_EmptyFrame_Ok in H1 as [-> _]. simpl.
    destruct (filter_date ss EmptyFrame) as [fd2|e] eqn:H2; [|done].
    apply filter_date_EmptyFrame_Ok in H2 as ->. simpl.
    intros ->%filter_sentiment_EmptyFrame_Ok. done.
  - destruct (date_range ss) as [dr|] eqn:Hdr.
    + rewrite (apply_filters_Table ss dr) by done. intros [= <-].
      rewrite (apply_filters_Table ss dr) by done. do 2 f_equal.
      rewrite list_filter_filter. apply list_filter_iff. tauto.
    + unfold apply_filters. rewrite filter_airline_Table. simpl.
      by rewrite filter_date_None.
Qed.

Lemma apply_filters_idempotent_witness :
  apply_filters (mkSession "Delta" (Some [16483; 16485]) ["positive"])
    (Table [tweet_delta]) = Ok (Table [tweet_delta]).
Proof.
  apply (apply_filters_idempotent
           (mkSession "Delta" (Some [16483; 16485]) ["positive"]) sample).
  by vm_compute.
Defined.

Lemma date_ok_spelled ss dr r :
  date_range ss = Some dr →
  date_ok ss r ↔
  ∀ start_date end_date, dr = [start_date; end_date] →
    start_date ≤ date_of (tweet_created r) ≤ end_date.
Proof.
  intros Hdr. unfold date_ok. rewrite Hdr.
  destruct dr as [|a [|b [|c dr]]]; split; try done.
  - intros Hab ?? [= <- <-]. done.
  - intros Hab. by apply Hab.
Qed.

(** X2: on a loaded frame a row is returned exactly when it is a row of the
    frame, its airline is the selected one (or "All" is selected), its day
    lies between the two picked days, both included (when two are picked),
    and its sentiment is among the selected ones (or none is selected). *)
Theorem apply_filters_membership sel dr sf rows :
  ∃ kept,
    apply_filters (mkSession sel (Some dr) sf) (Table rows) = Ok (Table kept)
    ∧ ∀ r, r ∈ kept ↔
        r ∈ rows
        ∧ (sel = "All" ∨ airline r = sel)
        ∧ (∀ start_date end_date, dr = [start_date; end_date] →
             start_date ≤ date_of (tweet_created r) ≤ end_date)
        ∧ (sf = [] ∨ airline_sentiment r ∈ sf).
Proof.
  eexists. split; [by apply (apply_filters_Table _ dr)|].
  intros r. rewrite list_elem_of_filter.
  unfold keeps, airline_ok, sentiment_ok. simpl.
  rewrite (date_ok_spelled _ dr) by done. tauto.
Qed.

(** X3: a date range whose end lies before its start leaves no row. *)
Theorem inverted_date_range_leaves_nothing sel start_date end_date sf rows :
  end_date < start_date →
  apply_filters (mkSession sel (Some [start_date; end_date]) sf) (Table rows)
  = Ok (Table []).
Proof.
  intros Hinv. rewrite (apply_filters_Table _ [start_date; end_date]) by done.
  do 2 f_equal. induction rows as [|r rows IH]; [done|].
  rewrite filter_cons_False; [done|].
  unfold keeps, date_ok. simpl. lia.
Qed.

Lemma inverted_date_range_leaves_nothing_witness :
  apply_filters (mkSession "All" (Some [16485; 16483]) []) sample = Ok (Table []).
Proof.
  apply (inverted_date_range_leaves_nothing "All" 16485 16483 []
           [tweet_delta; tweet_united; tweet_all]).
  lia.
Defined.

(** X4: the three steps of the filter block can be taken in any order: each
    of the five other orders returns what the order of the code returns. *)
Theorem filter_steps_commute sel dr sf rows :
  let ss := mkSession sel (Some dr) sf in
  ((filter_airline ss (Table rows) ≫= filter_sentiment ss) ≫= filter_date ss)
  = apply_filters ss (Table rows)
  ∧ ((filter_sentiment ss (Table rows) ≫= filter_airline ss) ≫= filter_date ss)
    = apply_filters ss (Table rows)
  ∧ ((filter_sentiment ss (Table rows) ≫= filter_date ss) ≫= filter_airline ss)
    = apply_filters ss (Table rows)
  ∧ ((filter_date ss (Table rows) ≫= filter_airline ss) ≫= filter_sentiment ss)
    = apply_filters ss (Table rows)
  ∧ ((filter_date ss (Table rows) ≫= filter_sentiment ss) ≫= filter_airline ss)
    = apply_filters ss (Table rows).
Proof.
  intros ss. rewrite (apply_filters_Table ss dr) by done.
  repeat (rewrite ?filter_airline_Table, ?filter_sentiment_Table,
            ?(filter_date_Table ss dr) by done; simpl).
  repeat split; do 2 f_equal; rewrite !list_filter_filter;
    apply list_filter_iff; intros r; unfold keeps; tauto.
Qed.

(** X5: selecting an airline only narrows what "All" returns with the same
    dates and sentiments: the rows kept are those of the selected airline
    among the rows kept under "All", in the same order. *)
Theorem airline_selection_narrows sel dr sf rows :
  ∃ kept kept_all,
    apply_filters (mkSession sel (Some dr) sf) (Table rows) = Ok (Table kept)
    ∧ apply_filters (mkSession "All" (Some dr) sf) (Table rows) = Ok (Table kept_all)
    ∧ kept = filter (λ r, sel = "All" ∨ airline r = sel) kept_all
    ∧ kept `sublist_of` kept_all.
Proof.
  do 2 eexists. split; [by apply (apply_filters_Table _ dr)|].
  split; [by apply (apply_filters_Table _ dr)|].
  assert (filter (keeps (mkSession sel (Some dr) sf)) rows
          = filter (λ r, sel = "All" ∨ airline r = sel)
              (filter (keeps (mkSession "All" (Some dr) sf)) rows)) as Heq.
  { rewrite list_filter_filter. apply list_filter_iff. intros r.
    unfold keeps, airline_ok, date_ok, sentiment_ok. simpl. tauto. }
  split; [done|]. rewrite Heq. apply sublist_filter.
Qed.

(** * The sidebar *)

Lemma elem_of_unique l x : x ∈ unique l ↔ x ∈ l.
Proof.
  induction l as [|y l IH]; [done|]. simpl.
  rewrite !elem_of_cons, list_elem_of_filter, IH.
  destruct (decide (x = y)); tauto.
Qed.

Lemma NoDup_unique l : NoDup (unique l).
Proof.
  induction l as [|y l IH]; simpl; [constructor|].
  constructor.
  - rewrite list_elem_of_filter. tauto.
  - by apply NoDup_filter.
Qed.

Lemma elem_of_sorted l x : x ∈ sorted l ↔ x ∈ l.
Proof. unfold sorted. by rewrite merge_sort_Permutation. Qed.

(** X6: the select box offers "All" first and then each airline of the data
    once, in ascending order, and nothing else. *)
Theorem airline_options_sorted_distinct rows :
  ∃ opts,
    airline_options (Table rows) = Ok ("All" :: opts)
    ∧ NoDup opts
    ∧ StronglySorted String.le opts
    ∧ ∀ a, a ∈ opts ↔ ∃ r, r ∈ rows ∧ airline r = a.
Proof.
  eexists. split; [done|]. split; [|split].
  - unfold sorted. rewrite merge_sort_Permutation. apply NoDup_unique.
  - apply (StronglySorted_merge_sort String.le).
  - intros a. rewrite elem_of_sorted, elem_of_unique, list_elem_of_fmap.
    split; intros (r & Hr1 & Hr2); exists r; by split.
Qed.

Lemma foldl_min_le x l :
  foldl Z.min x l ≤ x ∧ (∀ y, y ∈ l → foldl Z.min x l ≤ y).
Proof.
  revert x. induction l as [|z l IH]; intros x; simpl.
  - split; [lia|]. by intros y ?%elem_of_nil.
  - destruct (IH (Z.min x z)) as [H1 H2]. split; [lia|].
    intros y [->|Hy]%elem_of_cons; [lia|]. by apply H2.
Qed.

Lemma foldl_max_ge x l :
  x ≤ foldl Z.max x l ∧ (∀ y, y ∈ l → y ≤ foldl Z.max x l).
Proof.
  revert x. induction l as [|z l IH]; intros x; simpl.
  - split; [lia|]. by intros y ?%elem_of_nil.
  - destruct (IH (Z.max x z)) as [H1 H2]. split; [lia|].
    intros y [->|Hy]%elem_of_cons; [lia|]. by apply H2.
Qed.

Lemma series_min_le col m x : series_min col = Some m → x ∈ col → m ≤ x.
Proof.
  destruct col as [|y l]; [done|]. intros [= <-] [->|Hx]%elem_of_cons.
  - exact (proj1 (foldl_min_le y l)).
  - exact (proj2 (foldl_min_le y l) x Hx).
Qed.

Lemma series_max_ge col m x : series_max col = Some m → x ∈ col → x ≤ m.
Proof.
  destruct col as [|y l]; [done|]. intros [= <-] [->|Hx]%elem_of_cons.
  - exact (proj1 (foldl_max_ge y l)).
  - exact (proj2 (foldl_max_ge y l) x Hx).
Qed.

Lemma date_of_mono a b : a ≤ b → date_of a ≤ date_of b.
Proof. intros Hab. unfold date_of. apply Z.div_le_mono; lia. Qed.

Lemma foldl_min_elem x l : foldl Z.min x l ∈ x :: l.
Proof.
  revert x. induction l as [|z l IH]; intros x; simpl; [left|].
  pose proof (IH (Z.min x z)) as Hin. apply elem_of_cons in Hin as [Hin|Hin].
  - destruct (Z.min_spec x z) as [[_ Hm]|[_ Hm]].
    + rewrite Hin, Hm. left.
    + rewrite Hin, Hm. right. left.
  - right. by right.
Qed.

Lemma foldl_max_elem x l : foldl Z.max x l ∈ x :: l.
Proof.
  revert x. induction l as [|z l IH]; intros x; simpl; [left|].
  pose proof (IH (Z.max x z)) as Hin. apply elem_of_cons in Hin as [Hin|Hin].
  - destruct (Z.max_spec x z) as [[_ Hm]|[_ Hm]].
    + rewrite Hin, Hm. right. left.
    + rewrite Hin, Hm. left.
  - right. by right.
Qed.

(** X7: when the user leaves the date range as the sidebar offers it, the
    range runs from the first to the last day of the data: both ends are the
    day of some row and every row's day lies between them; and the date step
    of the filter keeps every row. *)
Theorem default_date_range_keeps_all u r rows ss0 :
  (∀ bounds, st_date_input u bounds = Ok (omap id bounds)) →
  ∃ ss first_day last_day,
    render_sidebar u (Table (r :: rows)) ss0 = ([], Ok ss)
    ∧ date_range ss = Some [first_day; last_day]
    ∧ (∃ r', r' ∈ r :: rows ∧ date_of (tweet_created r') = first_day)
    ∧ (∃ r', r' ∈ r :: rows ∧ date_of (tweet_created r') = last_day)
    ∧ (∀ r', r' ∈ r :: rows →
         first_day ≤ date_of (tweet_created r') ≤ last_day)
    ∧ filter_date ss (Table (r :: rows)) = Ok (Table (r :: rows)).
Proof.
  intros Hdefault.
  set (col := tweet_created <$> r :: rows).
  set (lo := foldl Z.min (tweet_created r) (tweet_created <$> rows)).
  set (hi := foldl Z.max (tweet_created r) (tweet_created <$> rows)).
  assert (∀ r', r' ∈ r :: rows →
            date_of lo ≤ date_of (tweet_created r') ≤ date_of hi) as Hcover.
  { intros r' Hr'.
    assert (tweet_created r' ∈ col) as Hin
      by (apply list_elem_of_fmap; eauto).
    split; apply date_of_mono.
    - by apply (series_min_le col).
    - by apply (series_max_ge col). }
  exists (mkSession (selectbox u ("All" :: sorted (unique (airline <$> r :: rows))))
            (Some [date_of lo; date_of hi]) (st_multiselect u)),
    (date_of lo), (date_of hi).
  split; [|split; [done|split; [|split; [|split; [exact Hcover|]]]]].
  - unfold render_sidebar. simpl. by rewrite Hdefault.
  - pose proof (foldl_min_elem (tweet_created r) (tweet_created <$> rows)) as Hin.
    fold lo in Hin. change (lo ∈ tweet_created <$> r :: rows) in Hin.
    apply list_elem_of_fmap in Hin as (r' & -> & Hr'). by exists r'.
  - pose proof (foldl_max_elem (tweet_created r) (tweet_created <$> rows)) as Hin.
    fold hi in Hin. change (hi ∈ tweet_created <$> r :: rows) in Hin.
    apply list_elem_of_fmap in Hin as (r' & -> & Hr'). by exists r'.
  - erewrite filter_date_Table by done.
    rewrite filter_all_elem; [done|].
    intros r' Hr'. unfold date_ok. simpl. by apply Hcover.
Qed.

Lemma default_date_range_keeps_all_witness :
  ∃ ss first_day last_day,
    render_sidebar default_user sample initial_session = ([], Ok ss)
    ∧ date_range ss = Some [first_day; last_day]
    ∧ (∃ r', r' ∈ [tweet_delta; tweet_united; tweet_all]
             ∧ date_of (tweet_created r') = first_day)
    ∧ (∃ r', r' ∈ [tweet_delta; tweet_united; tweet_all]
             ∧ date_of (tweet_created r') = last_day)
    ∧ (∀ r', r' ∈ [tweet_delta; tweet_united; tweet_all] →
         first_day ≤ date_of (tweet_created r') ≤ last_day)
    ∧ filter_date ss sample = Ok sample.
Proof.
  apply (default_date_range_keeps_all default_user tweet_delta
           [tweet_united; tweet_all] initial_session).
  reflexivity.
Defined.

Lemma selectbox_elem_of u options :
  selectbox u ("All" :: options) ∈ "All" :: options.
Proof.
  unfold selectbox.
  destruct (("All" :: options) !! st_selectbox u) as [a|] eqn:Ha; simpl.
  - by eapply list_elem_of_lookup_2.
  - left.
Qed.

(** X8: whatever the user picks in the select box, the airline step keeps at
    least one row of a frame that has rows: the box offers no airline that
    the data does not have. *)
Theorem sidebar_airline_keeps_a_row u r rows ss0 shown ss :
  render_sidebar u (Table (r :: rows)) ss0 = (shown, Ok ss) →
  (selected_airline ss = "All" ∨ ∃ r', r' ∈ r :: rows ∧ airline r' = selected_airline ss)
  ∧ ∃ r' kept, filter_airline ss (Table (r :: rows)) = Ok (Table (r' :: kept)).
Proof.
  intros Hside.
  assert (selected_airline ss
          = selectbox u ("All" :: sorted (unique (airline <$> r :: rows)))) as Hsel.
  { revert Hside. unfold render_sidebar. simpl getitem. simpl.
    destruct (st_date_input u _); simpl; [|done]. by intros [= <- <-]. }
  assert (selected_airline ss = "All"
          ∨ ∃ r', r' ∈ r :: rows ∧ airline r' = selected_airline ss) as Hcase.
  { pose proof (selectbox_elem_of u (sorted (unique (airline <$> r :: rows)))) as Hin.
    rewrite <- Hsel in Hin. apply elem_of_cons in Hin as [?|Hin]; [by left|right].
    apply elem_of_sorted, elem_of_unique, list_elem_of_fmap in Hin
      as (r' & -> & Hr'). eauto. }
  split; [done|]. rewrite filter_airline_Table.
  destruct (filter (airline_ok ss) (r :: rows)) as [|r' kept] eqn:Hf; [|by eauto].
  exfalso. destruct Hcase as [Hall|(r' & Hr' & Hair)].
  - eapply (filter_nil_not_elem_of _ _ r Hf); [by left|left].
  - eapply (filter_nil_not_elem_of _ _ r' Hf); [by right|done].
Qed.

Lemma sidebar_airline_keeps_a_row_witness :
  (selected_airline (mkSession "Delta" (Some [16485; 16485]) labels) = "All"
   ∨ ∃ r', r' ∈ [tweet_delta; tweet_united; tweet_all]
            ∧ airline r' = selected_airline
                             (mkSession "Delta" (Some [16485; 16485]) labels))
  ∧ ∃ r' kept,
      filter_airline (mkSession "Delta" (Some [16485; 16485]) labels) sample
      = Ok (Table (r' :: kept)).
Proof.
  apply (sidebar_airline_keeps_a_row delta_on_the_19th tweet_delta
           [tweet_united; tweet_all] initial_session []).
  reflexivity.
Defined.


(** * Loading, further *)

Lemma zip_with_created raw created :
  Forall2 (λ r ts, True) raw created →
  text <$> zip_with with_created raw created = raw_text <$> raw
  ∧ airline <$> zip_with with_created raw created = raw_airline <$> raw
  ∧ airline_sentiment <$> zip_with with_created raw created
    = raw_airline_sentiment <$> raw
  ∧ tweet_created <$> zip_with with_created raw created = created.
Proof.
  induction 1 as [|r ts raw created _ _ (IH1 & IH2 & IH3 & IH4)]; [done|].
  csimpl. by rewrite IH1, IH2, IH3, IH4.
Qed.

(** X10: [load_data] never lets an exception out.  Either the file was read
    and every timestamp parsed, and the frame has the rows of the file, in
    order, with text, airline and sentiment untouched and the timestamps
    parsed, and nothing is shown; or one error is shown and the frame is the
    empty one. *)
Theorem load_data_never_raises parse read_csv :
  (∃ raw created,
     read_csv = Ok raw
     ∧ mapM parse (raw_tweet_created <$> raw) = Some created
     ∧ ∃ rows, load_data parse read_csv = ([], Ok (Table rows))
         ∧ length rows = length raw
         ∧ text <$> rows = raw_text <$> raw
         ∧ airline <$> rows = raw_airline <$> raw
         ∧ airline_sentiment <$> rows = raw_airline_sentiment <$> raw
         ∧ tweet_created <$> rows = created)
  ∨ (∃ e, load_data parse read_csv = ([st_error e], Ok EmptyFrame)
        ∧ (read_csv = Raise e
           ∨ e = ValueError
             ∧ ∃ raw, read_csv = Ok raw
                 ∧ mapM parse (raw_tweet_created <$> raw) = None)).
Proof.
  destruct read_csv as [raw|e]; [|right; exists e; split; [done|by left]].
  destruct (mapM parse (raw_tweet_created <$> raw)) as [created|] eqn:Hparse.
  - left. exists raw, created. split; [done|]. split; [done|].
    eexists. split; [by apply load_data_Ok|].
    assert (Forall2 (λ (r : RawTweet) (ts : Z), True) raw created) as Hlen.
    { apply mapM_Some in Hparse. apply Forall2_fmap_l in Hparse.
      eapply Forall2_impl; [exact Hparse|done]. }
    destruct (zip_with_created raw created Hlen) as (H1 & H2 & H3 & H4).
    repeat split; try done.
    rewrite <- (length_fmap text), H1. by rewrite length_fmap.
  - right. exists ValueError. split.
    + unfold load_data, pd_to_datetime. simpl. by rewrite Hparse.
    + right. split; [done|]. by exists raw.
Qed.

(** * Key metrics, further *)

Lemma length_filter_eq_Forall {A} (P : A → Prop) `{!∀ x, Decision (P x)} (l : list A) :
  length (filter P l) = length l ↔ Forall P l.
Proof.
  induction l as [|x l IH]; [by split; [constructor|]|].
  rewrite filter_cons. pose proof (length_filter P l) as Hle.
  destruct (decide (P x)) as [Hx|Hx]; simpl.
  - rewrite Forall_cons. split.
    + intros [= Hl]. split; [done|by apply IH].
    + intros [_ Hl]. f_equal. by apply IH.
  - split; [lia|]. by intros [? _]%Forall_cons.
Qed.

Lemma count_of_labelled rows :
  (count_of "positive" rows + count_of "neutral" rows + count_of "negative" rows
   = length (filter (λ r, airline_sentiment r ∈ labels) rows))%nat.
Proof.
  unfold count_of, labels. induction rows as [|r rows IH]; [done|].
  rewrite !filter_cons.
  destruct (decide (airline_sentiment r ∈ ["positive"; "neutral"; "negative"]))
    as [Hr|Hr]; simpl length; rewrite <- IH.
  - set_unfold in Hr. destruct Hr as [->|[->|[->|[]]]];
      repeat case_decide; simplify_eq; simpl; lia.
  - repeat case_decide; simpl; try lia; exfalso; apply Hr; set_unfold; tauto.
Qed.

(** X11: the three counts shown add up to the number of rows that carry one
    of the three labels; rows with any other label are in the total only, so
    the sum falls short of the total exactly when such a row is present. *)
Theorem counts_cover_labelled_rows rows :
  let sum := (count_of "positive" rows + count_of "neutral" rows
              + count_of "negative" rows)%nat in
  sentiment_count "positive" (Table rows) = Ok (count_of "positive" rows)
  ∧ sentiment_count "neutral" (Table rows) = Ok (count_of "neutral" rows)
  ∧ sentiment_count "negative" (Table rows) = Ok (count_of "negative" rows)
  ∧ sum = length (filter (λ r, airline_sentiment r ∈ labels) rows)
  ∧ (sum ≤ len (Table rows))%nat
  ∧ (sum = len (Table rows) ↔ Forall (λ r, airline_sentiment r ∈ labels) rows).
Proof.
  intros sum. subst sum. rewrite !sentiment_count_Table, count_of_labelled.
  do 4 (split; [done|]). unfold len. simpl records. split.
  - apply length_filter.
  - apply length_filter_eq_Forall.
Qed.

(** X12: with at least one row left, every share shown lies between 0
    and 1. *)
Theorem shares_between_zero_and_one label s r rows :
  ∃ share,
    metric label s (Table (r :: rows))
    = ([st_metric label (count_of s (r :: rows)) share], Ok ())
    ∧ (0 <= share)%Q ∧ (share <= 1)%Q.
Proof.
  destruct (metric_Table label s r rows) as (share & Hm & _ & H0 & H1 & _).
  by exists share.
Qed.

(** * The two charts *)

Lemma group_size_cell_by `{Countable K} (key : Tweet → K) rows k :
  group_size key rows !! k = cell_by key k rows.
Proof. by rewrite group_size_lookup. Qed.

Lemma sorted_Permutation l : sorted l ≡ₚ l.
Proof. apply merge_sort_Permutation. Qed.

Lemma unstack_columns_NoDup `{Countable K} (sort : list K → list K)
    (series : gmap (K * string) nat) :
  NoDup (columns (unstack sort series)).
Proof.
  unfold unstack. simpl. rewrite sorted_Permutation. apply NoDup_remove_dups.
Qed.

(** X14: the airline chart has one row for each airline that occurs in the
    filtered data and for no other, in ascending order, one column for each
    sentiment that occurs, and in each cell the number of rows of that
    airline and sentiment, or a missing value where there is none. *)
Theorem airline_df_is_sparse rows :
  ∃ df, airline_df (Table rows) = Ok df
  ∧ (∀ a, a ∈ index df ↔ ∃ r, r ∈ rows ∧ airline r = a)
  ∧ NoDup (index df)
  ∧ StronglySorted String.le (index df)
  ∧ (∀ s, s ∈ columns df ↔ ∃ r, r ∈ rows ∧ airline_sentiment r = s)
  ∧ values df
    = (λ a, (λ s, cell_by airline_and_sentiment (a, s) rows) <$> columns df)
        <$> index df.
Proof.
  eexists. split; [done|]. simpl records.
  split; [|split; [|split; [|split]]].
  - intros a. rewrite (unstack_index _ sorted_Permutation). split.
    + intros (s & Hs). apply group_size_is_Some in Hs as (r & Hr & [= <- _]). eauto.
    + intros (r & Hr & <-). exists (airline_sentiment r).
      apply group_size_is_Some. by exists r.
  - apply (unstack_index_NoDup _ sorted_Permutation).
  - apply (StronglySorted_merge_sort String.le).
  - intros s. rewrite unstack_columns. split.
    + intros (a & Ha). apply group_size_is_Some in Ha as (r & Hr & [= _ <-]). eauto.
    + intros (r & Hr & <-). exists (airline r).
      apply group_size_is_Some. by exists r.
  - rewrite unstack_values. apply list_fmap_ext. intros _ a _.
    apply list_fmap_ext. intros _ s _. apply group_size_cell_by.
Qed.

Lemma sum_list_cons (n : nat) (l : list nat) :
  sum_list (n :: l) = (n + sum_list l)%nat.
Proof. done. Qed.

Section totals.
Context {A : Type}.

Lemma length_filter_disjoint (P Q : A → Prop)
    `{!∀ x, Decision (P x)} `{!∀ x, Decision (Q x)} (l : list A) :
  (∀ x, P x → Q x → False) →
  (length (filter P l) + length (filter Q l)
   = length (filter (λ x, P x ∨ Q x) l))%nat.
Proof.
  intros Hdisj. induction l as [|x l IH]; [done|].
  rewrite !filter_cons.
  destruct (decide (P x)) as [HP|HP]; destruct (decide (Q x)) as [HQ|HQ];
    destruct (decide (P x ∨ Q x)) as [HPQ|HPQ]; simpl; try lia;
    exfalso; try tauto. by eapply Hdisj.
Qed.

Lemma length_filter_False (P : A → Prop) `{!∀ x, Decision (P x)} (l : list A) :
  (∀ x, ¬ P x) → length (filter P l) = 0%nat.
Proof.
  intros HP. induction l as [|x l IH]; [done|].
  by rewrite filter_cons_False.
Qed.

Lemma length_filter_iff (P Q : A → Prop)
    `{!∀ x, Decision (P x)} `{!∀ x, Decision (Q x)} (l : list A) :
  (∀ x, P x ↔ Q x) → length (filter P l) = length (filter Q l).
Proof. intros HPQ. by rewrite (list_filter_iff P Q). Qed.

(** Counting by the values of [g] in a list without repetition counts each
    row with such a value once. *)
Lemma sum_counts `{EqDecision C} (g : A → C) (Q : A → Prop)
    `{!∀ x, Decision (Q x)} (cs : list C) (l : list A) :
  NoDup cs →
  sum_list ((λ c, length (filter (λ x, g x = c ∧ Q x) l)) <$> cs)
  = length (filter (λ x, g x ∈ cs ∧ Q x) l).
Proof.
  induction 1 as [|c cs Hc _ IH].
  - symmetry. apply length_filter_False. intros x [Hx _]. by apply elem_of_nil in Hx.
  - rewrite fmap_cons, sum_list_cons, IH, length_filter_disjoint.
    + apply length_filter_iff. intros x. rewrite elem_of_cons. tauto.
    + intros x [<- _] [Hin _]. done.
Qed.
End totals.

Section chart_totals.
Context `{Countable K} (key : Tweet → K * string) (sort : list K → list K).
Hypothesis sort_perm : ∀ l, sort l ≡ₚ l.

Lemma sum_cells (f : K → string → option nat) (idx : list K) (cols : list string) :
  sum_list (default 0%nat <$> concat ((λ k, (λ c, f k c) <$> cols) <$> idx))
  = sum_list ((λ k, sum_list ((λ c, default 0%nat (f k c)) <$> cols)) <$> idx).
Proof.
  induction idx as [|k idx IH]; [done|].
  csimpl. rewrite fmap_app, sum_list_with_app, IH. f_equal.
  by rewrite <- list_fmap_compose.
Qed.

Lemma unstack_total rows :
  cells_total (unstack sort (group_size key rows)) = length rows.
Proof.
  unfold cells_total. rewrite (unstack_values sort).
  set (df := unstack sort (group_size key rows)).
  rewrite (sum_cells (λ k c, group_size key rows !! (k, c))).
  rewrite (list_fmap_ext _
    (λ k, length (filter (λ r, (key r).1 = k ∧ (key r).2 ∈ columns df) rows))).
  2:{ intros _ k _.
      rewrite (list_fmap_ext _
        (λ c, length (filter (λ r, (key r).2 = c ∧ (key r).1 = k) rows))).
      2:{ intros _ c _. rewrite group_size_lookup.
          rewrite (length_filter_iff (λ r, key r = (k, c))
                     (λ r, (key r).2 = c ∧ (key r).1 = k)).
          - by destruct (length _).
          - intros r. destruct (key r) as [k' c']. simpl.
            split; [by intros [= -> ->]|by intros [-> ->]]. }
      rewrite sum_counts by apply unstack_columns_NoDup.
      apply length_filter_iff. intros r. tauto. }
  rewrite sum_counts by apply (unstack_index_NoDup sort sort_perm).
  rewrite <- (filter_all_elem (λ r, (key r).1 ∈ index df ∧ (key r).2 ∈ columns df) rows)
    at 2; [done|].
  intros r Hr. split.
  - apply (unstack_index sort sort_perm). exists (key r).2.
    apply group_size_is_Some. exists r. split; [done|]. by destruct (key r).
  - apply unstack_columns. exists (key r).1.
    apply group_size_is_Some. exists r. split; [done|]. by destruct (key r).
Qed.
End chart_totals.

(** X15: each chart accounts for every filtered row exactly once: the cells
    of the daily table add up to the number of rows, and so do the cells of
    the airline table. *)
Theorem charts_total_the_rows rows :
  ∃ time airlines,
    time_df (Table rows) = Ok time
    ∧ airline_df (Table rows) = Ok airlines
    ∧ cells_total time = len (Table rows)
    ∧ cells_total airlines = len (Table rows).
Proof.
  do 2 eexists. split; [done|]. split; [done|]. split.
  - apply (unstack_total _ _ (merge_sort_Permutation Z.le)).
  - apply (unstack_total _ _ sorted_Permutation).
Qed.

Lemma time_df_index rows d :
  d ∈ index (unstack (merge_sort Z.le) (group_size day_and_sentiment rows))
  ↔ ∃ r, r ∈ rows ∧ date_of (tweet_created r) = d.
Proof.
  rewrite (unstack_index _ (merge_sort_Permutation Z.le)). split.
  - intros (s & Hs). apply group_size_is_Some in Hs as (r & Hr & [= <- _]). eauto.
  - intros (r & Hr & <-). exists (airline_sentiment r).
    apply group_size_is_Some. by exists r.
Qed.

Lemma airline_df_index rows a :
  a ∈ index (unstack sorted (group_size airline_and_sentiment rows))
  ↔ ∃ r, r ∈ rows ∧ airline r = a.
Proof.
  rewrite (unstack_index _ sorted_Permutation). split.
  - intros (s & Hs). apply group_size_is_Some in Hs as (r & Hr & [= <- _]). eauto.
  - intros (r & Hr & <-). exists (airline_sentiment r).
    apply group_size_is_Some. by exists r.
Qed.

Lemma chart_columns `{Countable K} (key : Tweet → K) (sort : list K → list K) rows c :
  c ∈ columns (unstack sort (group_size (λ r, (key r, airline_sentiment r)) rows))
  ↔ ∃ r, r ∈ rows ∧ airline_sentiment r = c.
Proof.
  rewrite unstack_columns. split.
  - intros (k & Hk). apply group_size_is_Some in Hk as (r & Hr & [= _ <-]). eauto.
  - intros (r & Hr & <-). exists (key r).
    apply group_size_is_Some. by exists r.
Qed.

(** X16: the charts drawn from the filtered data stay within the selection:
    every day of the daily chart lies in the picked range, with one airline
    selected the airline chart has rows for that airline only, and with
    sentiments selected both charts have columns for selected sentiments
    only. *)
Theorem charts_stay_within_selection sel start_date end_date sf rows :
  ∃ kept time airlines,
    apply_filters (mkSession sel (Some [start_date; end_date]) sf) (Table rows)
    = Ok (Table kept)
    ∧ time_df (Table kept) = Ok time
    ∧ airline_df (Table kept) = Ok airlines
    ∧ (∀ d, d ∈ index time → start_date ≤ d ≤ end_date)
    ∧ (sel ≠ "All" → ∀ a, a ∈ index airlines → a = sel)
    ∧ (sf ≠ [] → ∀ c, c ∈ columns time ∨ c ∈ columns airlines → c ∈ sf).
Proof.
  set (ss := mkSession sel (Some [start_date; end_date]) sf).
  exists (filter (keeps ss) rows). do 2 eexists.
  split; [by apply (apply_filters_Table ss [start_date; end_date])|].
  split; [done|]. split; [done|]. simpl records.
  split; [|split].
  - intros d (r & Hr & <-)%time_df_index.
    apply list_elem_of_filter in Hr as [(_ & Hd & _) _]. exact Hd.
  - intros Hsel a (r & Hr & <-)%airline_df_index.
    apply list_elem_of_filter in Hr as [([?|?] & _) _]; done.
  - intros Hsf c Hc.
    assert (∃ r, r ∈ filter (keeps ss) rows ∧ airline_sentiment r = c)
      as (r & Hr & <-).
    { destruct Hc as [Hc|Hc].
      - by apply (chart_columns (λ r, date_of (tweet_created r))) in Hc.
      - by apply (chart_columns airline) in Hc. }
    apply list_elem_of_filter in Hr as [(_ & _ & [?|?]) _]; done.
Qed.

(** * The polarity threshold, further *)

Lemma SFltb_opp_finite (s : bool) (m m0 : positive) (e e0 : Z) :
  SFltb (S754_finite (negb s) m e) (S754_finite true m0 e0)
  = SFltb (S754_finite false m0 e0) (S754_finite s m e)
  ∧ SFltb (S754_finite false m0 e0) (S754_finite (negb s) m e)
    = SFltb (S754_finite s m e) (S754_finite true m0 e0).
Proof.
  unfold SFltb, SFcompare. destruct s; cbn [negb].
  - split; [reflexivity|].
    change (Pos.compare_cont Eq m m0) with (m ?= m0)%positive.
    change (Pos.compare_cont Eq m0 m) with (m0 ?= m)%positive.
    rewrite (Z.compare_antisym e0 e), (Pos.compare_antisym m0 m).
    destruct (e0 ?= e); cbn [CompOpp]; try reflexivity.
    destruct (m0 ?= m)%positive; reflexivity.
  - split; [|reflexivity].
    change (Pos.compare_cont Eq m m0) with (m ?= m0)%positive.
    change (Pos.compare_cont Eq m0 m) with (m0 ?= m)%positive.
    rewrite (Z.compare_antisym e0 e), (Pos.compare_antisym m0 m).
    destruct (e0 ?= e); cbn [CompOpp]; try reflexivity.
    destruct (m0 ?= m)%positive; reflexivity.
Qed.

Lemma SFltb_opp (x : spec_float) (m0 : positive) (e0 : Z) :
  SFltb (SFopp x) (S754_finite true m0 e0) = SFltb (S754_finite false m0 e0) x
  ∧ SFltb (S754_finite false m0 e0) (SFopp x) = SFltb x (S754_finite true m0 e0).
Proof.
  destruct x as [s|s| |s m e].
  - by destruct s.
  - by destruct s.
  - done.
  - apply SFltb_opp_finite.
Qed.

Lemma ltb_opp_tenth (p : float) :
  (- p <? - py_0_1)%float = (py_0_1 <? p)%float
  ∧ (py_0_1 <? - p)%float = (p <? - py_0_1)%float.
Proof.
  rewrite !ltb_spec, opp_spec.
  replace (Prim2SF (- py_0_1)) with (S754_finite true 7205759403792794 (-56))
    by (by vm_compute).
  replace (Prim2SF py_0_1) with (S754_finite false 7205759403792794 (-56))
    by (by vm_compute).
  apply SFltb_opp.
Qed.

(** X17: the label is always one of "positive", "neutral" and "negative",
    and the rule is symmetric: a text whose polarity is negated gets the
    opposite label and the negated score. *)
Theorem analyze_sentiment_symmetric (textblob_polarity : string → float) (text : string) :
  let label := (analyze_sentiment textblob_polarity text).1 in
  label ∈ labels
  ∧ analyze_sentiment (λ t, (- textblob_polarity t)%float) text
    = (opposite label, (- textblob_polarity text)%float).
Proof.
  intros label. subst label. unfold analyze_sentiment.
  destruct (ltb_opp_tenth (textblob_polarity text)) as [-> ->].
  pose proof (below_minus_tenth_not_above_tenth (textblob_polarity text)) as Hexcl.
  destruct (py_0_1 <? textblob_polarity text)%float eqn:Hpos;
    destruct (textblob_polarity text <? - py_0_1)%float eqn:Hneg;
    cbn [fst snd];
    try (specialize (Hexcl eq_refl); discriminate);
    (split; [unfold labels; rewrite !elem_of_cons; tauto|reflexivity]).
Qed.

(** * The word cloud *)

Lemma colormaps_lookup sentiment :
  colormaps !! sentiment
  = if decide (sentiment = "positive") then Some "viridis"
    else if decide (sentiment = "neutral") then Some "plasma"
    else if decide (sentiment = "negative") then Some "Reds"
    else None.
Proof.
  unfold colormaps. rewrite !lookup_insert, lookup_empty.
  repeat case_decide; congruence.
Qed.

(** X18: [generate_wordcloud] hands no empty and no all-blank text to
    [WordCloud]: for these it returns the placeholder, whatever the
    sentiment and whatever [WordCloud] would do.  Any other text it hands
    over unchanged, with the colormap "Reds" exactly for negative, "plasma"
    exactly for neutral, and "viridis" for positive and for every sentiment
    the dict does not have; it returns the cloud if [WordCloud] makes one
    and raises what [WordCloud] raises. *)
Theorem generate_wordcloud_edges py_isspace wordcloud_generate text sentiment :
  generate_wordcloud py_isspace wordcloud_generate "" sentiment = Ok no_text_figure
  ∧ (py_isspace text = true →
       generate_wordcloud py_isspace wordcloud_generate text sentiment
       = Ok no_text_figure)
  ∧ (text ≠ "" → py_isspace text = false →
       ∃ colormap,
         (colormap = "Reds" ↔ sentiment = "negative")
         ∧ (colormap = "plasma" ↔ sentiment = "neutral")
         ∧ (colormap = "viridis" ↔ sentiment ≠ "negative" ∧ sentiment ≠ "neutral")
         ∧ generate_wordcloud py_isspace wordcloud_generate text sentiment
           = match wordcloud_generate colormap text with
             | Ok _ => Ok (word_cloud_figure text colormap)
             | Raise e => Raise e
             end).
Proof.
  split; [done|]. split.
  - intros Hsp. unfold generate_wordcloud. rewrite Hsp. by rewrite orb_true_r.
  - intros Hne Hsp. unfold generate_wordcloud.
    rewrite Hsp, bool_decide_eq_false_2 by done. simpl orb. cbv iota.
    exists (default "viridis" (colormaps !! sentiment)).
    split; [|split; [|split]].
    4:{ by destruct (wordcloud_generate _ text) as [[]|e]. }
    all: rewrite colormaps_lookup; repeat case_decide; subst; simpl;
      split; try done; intros; try congruence; try tauto; by destruct_and?.
Qed.

Example generate_wordcloud_of_one_stop_word :
  generate_wordcloud never_blank cloud_unless_the "the" "neutral" = Raise ValueError
  ∧ generate_wordcloud never_blank cloud_unless_the "the crew" "neutral"
    = Ok (word_cloud_figure "the crew" "plasma").
Proof. by vm_compute. Qed.

(** * The corpus, further *)

Lemma mapM_id_app (l1 l2 : list (option string)) :
  mapM (M:=option) id (l1 ++ l2)
  = match mapM (M:=option) id l1, mapM (M:=option) id l2 with
    | Some k1, Some k2 => Some (k1 ++ k2)%list
    | _, _ => None
    end.
Proof.
  induction l1 as [|[x|] l1 IH]; simpl.
  - by destruct (mapM id l2).
  - rewrite IH. destruct (mapM id l1), (mapM id l2); done.
  - done.
Qed.

Lemma string_app_assoc (s1 s2 s3 : string) : (s1 ++ s2) ++ s3 = s1 ++ s2 ++ s3.
Proof.
  induction s1 as [|a s1 IH]; [done|].
  change (String a ((s1 ++ s2) ++ s3) = String a (s1 ++ s2 ++ s3)).
  by rewrite IH.
Qed.

Lemma concat_cons sep x l :
  l ≠ [] → String.concat sep (x :: l) = x ++ sep ++ String.concat sep l.
Proof. by destruct l. Qed.

Lemma concat_app sep l1 l2 :
  l1 ≠ [] → l2 ≠ [] →
  String.concat sep (l1 ++ l2)
  = String.concat sep l1 ++ sep ++ String.concat sep l2.
Proof.
  intros H1 H2. induction l1 as [|x l1 IH]; [done|].
  destruct l1 as [|y l1].
  - simpl app. by rewrite concat_cons.
  - rewrite <- app_comm_cons, !concat_cons by done.
    rewrite IH by done. by rewrite !string_app_assoc.
Qed.

Lemma mapM_id_nil (l : list (option string)) (k : list string) :
  mapM (M:=option) id l = Some k → (k = [] ↔ l = []).
Proof.
  intros Hk. apply length_mapM in Hk.
  destruct l, k; simpl in Hk; try done; split; done.
Qed.

(** X19: the corpus of two frames put one after the other is the two
    corpora joined by one space; when one of them has no row of the
    sentiment it is the corpus of the other, with no space added; and when
    the join raises for one of them it raises for the two together. *)
Theorem corpus_of_appended_rows s rows1 rows2 :
  (sentiment_rows s (Table (rows1 ++ rows2)) ≫= text_data)
  = match sentiment_rows s (Table rows1) ≫= text_data,
          sentiment_rows s (Table rows2) ≫= text_data with
    | Ok c1, Ok c2 =>
        Ok match filter (λ r, airline_sentiment r = s) rows1,
                 filter (λ r, airline_sentiment r = s) rows2 with
           | [], _ => c2
           | _, [] => c1
           | _, _ => c1 ++ " " ++ c2
           end
    | Raise e, _ => Raise e
    | _, Raise e => Raise e
    end.
Proof.
  rewrite !sentiment_rows_Table. simpl. rewrite !text_data_Table.
  rewrite filter_app, fmap_app, mapM_id_app.
  set (m1 := filter _ rows1). set (m2 := filter _ rows2).
  destruct (mapM (M:=option) id (text <$> m1)) as [k1|] eqn:H1;
    destruct (mapM (M:=option) id (text <$> m2)) as [k2|] eqn:H2; try done.
  apply mapM_id_nil in H1, H2.
  destruct m1 as [|r1 m1'].
  - assert (k1 = []) as -> by (by apply H1). done.
  - destruct m2 as [|r2 m2'].
    + assert (k2 = []) as -> by (by apply H2). by rewrite app_nil_r.
    + rewrite concat_app; [done| |].
      * intros Hk. apply H1 in Hk. done.
      * intros Hk. apply H2 in Hk. done.
Qed.

(** X20: the corpus for a sentiment is made of the rows that carry it and of
    no other: when each of them has a text it is their texts in row order
    with one space between each two, and the empty string when there is
    none; when one of them has no text the join raises [TypeError]. *)
Theorem corpus_of_matching_texts s rows :
  let matching := filter (λ r, airline_sentiment r = s) rows in
  let corpus := sentiment_rows s (Table rows) ≫= text_data in
  (∀ texts, text <$> matching = Some <$> texts →
     corpus = Ok (String.concat " " texts))
  ∧ (∀ r, r ∈ matching → text r = None → corpus = Raise TypeError)
  ∧ (matching = [] → corpus = Ok "")
  ∧ String.concat " " ["a"; "b c"; "d"] = "a b c d".
Proof.
  intros matching corpus. subst corpus.
  rewrite sentiment_rows_Table. simpl. rewrite text_data_Table. fold matching.
  split; [|split; [|split; [|done]]].
  - intros texts Ht. rewrite Ht.
    assert (mapM (M:=option) id (Some <$> texts) = Some texts) as ->; [|done].
    apply mapM_Some. apply Forall2_fmap_l. by apply Forall_Forall2_diag, Forall_true.
  - intros r Hr Hnone.
    assert (mapM (M:=option) id (text <$> matching) = None) as ->; [|done].
    apply mapM_None. apply Exists_exists. exists None. split; [|done].
    apply list_elem_of_fmap. by exists r.
  - by intros ->.
Qed.

(** * The page as a whole *)

Lemma trends_tab_Table rows :
  trends_tab (Table rows)
  = ([st_area_chart (unstack (merge_sort Z.le) (group_size day_and_sentiment rows))],
     Ok ()).
Proof. done. Qed.

Lemma airlines_tab_Table rows :
  airlines_tab (Table rows)
  = ([st_bar_chart (unstack sorted (group_size airline_and_sentiment rows))], Ok ()).
Proof. done. Qed.

Lemma word_clouds_tab_Table py_isspace wordcloud_generate u rows :
  word_clouds_tab py_isspace wordcloud_generate u (Table rows)
  = match filter (λ r, airline_sentiment r = st_radio u) rows with
    | [] => ([st_warning (st_radio u)], Ok ())
    | matching =>
        match mapM id (text <$> matching) with
        | None => ([], Raise TypeError)
        | Some texts =>
            match generate_wordcloud py_isspace wordcloud_generate
                    (String.concat " " texts) (st_radio u) with
            | Ok fig => ([st_pyplot fig], Ok ())
            | Raise e => ([], Raise e)
            end
        end
    end.
Proof.
  unfold word_clouds_tab. rewrite sentiment_rows_Table. unfold lift.
  cbn [mbind UI_bind app]. unfold empty. cbn [records].
  destruct (filter _ rows) as [|r matching] eqn:Hf; [done|].
  rewrite bool_decide_eq_false_2 by done. cbn [negb].
  rewrite text_data_Table.
  destruct (mapM (M:=option) id (text <$> r :: matching)); [|done].
  cbn [mbind UI_bind app].
  by destruct (generate_wordcloud _ _ _ _).
Qed.

Lemma live_analysis_tab_shown textblob_polarity u :
  live_analysis_tab textblob_polarity u
  = (if st_button u
     then [st_sentiment_box (analyze_sentiment textblob_polarity (st_text_area u)).1
             (analyze_sentiment textblob_polarity (st_text_area u)).2]
     else [], Ok ()).
Proof.
  unfold live_analysis_tab. destruct (st_button u); [|done].
  by destruct (analyze_sentiment _ _).
Qed.

Lemma UI_bind_Ok {A B} shown (x : A) (k : A → UI B) :
  (shown, Ok x) ≫= k = ((shown ++ (k x).1)%list, (k x).2).
Proof. unfold mbind, UI_bind. by destruct (k x). Qed.

(** X13: on a loaded frame the page is drawn completely exactly when the
    filter leaves a row and the word cloud tab does not raise.  With no row
    left it shows the header and ends in [ZeroDivisionError].  With rows
    left it shows the header with their number, the three metrics with
    their shares, the daily and the airline chart of these rows and what
    the word cloud tab shows; if that tab raises the run ends there, and
    otherwise the sentiment box of the text in the text area follows when
    the button was pressed, and nothing when it was not.  The word cloud tab
    shows the warning when no row of the picked sentiment is left; it raises
    [TypeError] when such a row has no text, and what [generate_wordcloud]
    raises for the joined texts. *)
Theorem page_drawn_iff_rows_left textblob_polarity py_isspace wordcloud_generate
    u sel dr sf rows :
  let ss := mkSession sel (Some dr) sf in
  let kept := filter (keeps ss) rows in
  let page :=
    render_main_content textblob_polarity py_isspace wordcloud_generate u ss
      (Table rows) in
  let tab := word_clouds_tab py_isspace wordcloud_generate u (Table kept) in
  let matching := filter (λ r, airline_sentiment r = st_radio u) kept in
  (kept = [] → page = ([st_header 0], Raise ZeroDivisionError))
  ∧ (kept ≠ [] →
     ∃ pos neu neg time airlines,
       py_truediv (count_of "positive" kept) (length kept) = Ok pos
       ∧ py_truediv (count_of "neutral" kept) (length kept) = Ok neu
       ∧ py_truediv (count_of "negative" kept) (length kept) = Ok neg
       ∧ time_df (Table kept) = Ok time
       ∧ airline_df (Table kept) = Ok airlines
       ∧ page
         = ((st_header (length kept)
              :: st_metric "Positive Tweets" (count_of "positive" kept) pos
              :: st_metric "Neutral Tweets" (count_of "neutral" kept) neu
              :: st_metric "Negative Tweets" (count_of "negative" kept) neg
              :: st_area_chart time :: st_bar_chart airlines :: tab.1)
            ++ match tab.2 with
               | Ok _ =>
                   if st_button u
                   then [st_sentiment_box
                           (analyze_sentiment textblob_polarity (st_text_area u)).1
                           (analyze_sentiment textblob_polarity (st_text_area u)).2]
                   else []
               | Raise _ => []
               end,
            tab.2)%list)
  ∧ (page.2 = Ok () ↔ kept ≠ [] ∧ tab.2 = Ok ())
  ∧ tab
    = match matching with
      | [] => ([st_warning (st_radio u)], Ok ())
      | _ =>
          match mapM id (text <$> matching) with
          | None => ([], Raise TypeError)
          | Some texts =>
              match generate_wordcloud py_isspace wordcloud_generate
                      (String.concat " " texts) (st_radio u) with
              | Ok fig => ([st_pyplot fig], Ok ())
              | Raise e => ([], Raise e)
              end
          end
      end.
Proof.
  intros ss kept page tab matching.
  assert (kept = [] → page = ([st_header 0], Raise ZeroDivisionError)) as Hnone.
  { intros Hk. unfold page, render_main_content.
    rewrite (apply_filters_Table ss dr) by done. fold kept. by rewrite Hk. }
  assert (kept ≠ [] →
     ∃ pos neu neg,
       py_truediv (count_of "positive" kept) (length kept) = Ok pos
       ∧ py_truediv (count_of "neutral" kept) (length kept) = Ok neu
       ∧ py_truediv (count_of "negative" kept) (length kept) = Ok neg
       ∧ page
         = ((st_header (length kept)
              :: st_metric "Positive Tweets" (count_of "positive" kept) pos
              :: st_metric "Neutral Tweets" (count_of "neutral" kept) neu
              :: st_metric "Negative Tweets" (count_of "negative" kept) neg
              :: st_area_chart
                   (unstack (merge_sort Z.le) (group_size day_and_sentiment kept))
              :: st_bar_chart
                   (unstack sorted (group_size airline_and_sentiment kept))
              :: tab.1)
            ++ match tab.2 with
               | Ok _ =>
                   if st_button u
                   then [st_sentiment_box
                           (analyze_sentiment textblob_polarity (st_text_area u)).1
                           (analyze_sentiment textblob_polarity (st_text_area u)).2]
                   else []
               | Raise _ => []
               end,
            tab.2)%list) as Hsome.
  { intros Hk. unfold page, render_main_content.
    rewrite (apply_filters_Table ss dr) by done. fold kept.
    destruct kept as [|r kept'] eqn:Hkept; [done|].
    destruct (key_metrics_Table r kept') as (pos & neu & neg & Hkm & Hp & Hu & Hg).
    exists pos, neu, neg. do 3 (split; [done|]).
    unfold lift. rewrite UI_bind_Ok. cbv beta.
    rewrite Hkm, trends_tab_Table, airlines_tab_Table, live_analysis_tab_shown.
    fold tab. destruct tab as [cloud [[]|e]]; cbn; by rewrite ?app_nil_r. }
  split; [exact Hnone|]. split; [|split].
  - intros Hk. destruct (Hsome Hk) as (pos & neu & neg & Hp & Hu & Hg & Hpage).
    exists pos, neu, neg. do 2 eexists. do 3 (split; [done|]).
    split; [reflexivity|]. split; [reflexivity|]. exact Hpage.
  - destruct (decide (kept = [])) as [Hk|Hk].
    + rewrite (Hnone Hk). split; [done|]. by intros [? _].
    + destruct (Hsome Hk) as (pos & neu & neg & _ & _ & _ & ->). cbn [snd].
      split; [done|]. by intros [_ ?].
  - unfold tab. rewrite word_clouds_tab_Table. fold matching. by destruct matching.
Qed.
